(** * Payment lifecycle and reconciliation: a shallow embedding

    The development follows the payment controller, the payment service and
    the Mongoose models of the admissions backend.  Every [await]ed call of
    the source is one [Await] node of a small free monad, so that a handler
    can be run to completion against a store ([run]) or interleaved with
    other handlers at its [await] points ([interleave]), the way the Node.js
    event loop schedules them.

    Conventions of the model:
    - the three collections are lists in insertion order, a query returns
      the first match;
    - [save()] validates the document and then writes the paths whose
      assigned value differs from the loaded one, together with the paths
      that were missing in the collection and got their schema default on
      loading; [findByIdAndUpdate] writes the paths of the update that the
      schema declares, without validation; schema validators are modelled
      where the controller depends on them ([required], [unique], the cast
      of a [Date] path, the [confirmPassword] check of an Application), and
      the automatic [createdAt]/[updatedAt] stamps are left out;
    - a Payment whose [metadata] bag is empty stands for a document stored
      without that path (Mongoose drops an empty bag when it stores a new
      document); the model does not tell a bag stored empty from a missing
      one;
    - the gateway, the clock, the random suffix and the id generator are
      read from a [World]. *)

From Stdlib Require Import ZArith Ascii.
From stdpp Require Import base option list strings gmap pretty.

Local Open Scope string_scope.
Local Open Scope list_scope.
Local Open Scope Z_scope.

(** ** Data model *)

Definition ObjectId := N.

(** [paymentSchema.status] *)
Inductive PaymentStatus := Pending | Success | Failed | Cancelled | Expired.

(** [applicationSchema.status] *)
Inductive ApplicationStatus := AppPending | AppApproved | AppRejected | AppEnrolled.

(** [applicationSchema.paymentStatus]; the second declaration of the path
    ([applicationSchema.add]) leaves [failed] out of its [enum], but update
    validators are off for the [findByIdAndUpdate] calls of the controller,
    so every value it writes is stored. *)
Inductive ApplicationPaymentStatus := PayPending | PayPaid | PayExpired | PayFailed.

#[global] Instance PaymentStatus_eq_dec : EqDecision PaymentStatus.
Proof. solve_decision. Defined.
#[global] Instance ApplicationStatus_eq_dec : EqDecision ApplicationStatus.
Proof. solve_decision. Defined.
#[global] Instance ApplicationPaymentStatus_eq_dec : EqDecision ApplicationPaymentStatus.
Proof. solve_decision. Defined.

(** The terminal states of a Payment. *)
Definition terminal (s : PaymentStatus) : bool :=
  match s with Pending => false | _ => true end.

(** An argument of [new Date(x)] as the gateway sends it. *)
Inductive JsDateArg :=
| JsUndefined
| JsNull
| JsDateString (parsed : option Z).

Inductive JsDate := ValidDate (ms : Z) | InvalidDate.

(** [new Date(x)]: [undefined] and an unparsable string give an invalid
    date, [null] gives the epoch. *)
Definition new_Date (x : JsDateArg) : JsDate :=
  match x with
  | JsUndefined => InvalidDate
  | JsNull => ValidDate 0
  | JsDateString (Some ms) => ValidDate ms
  | JsDateString None => InvalidDate
  end.

(** [response.data] of the gateway's transaction verification. *)
Record VerificationData := {
  v_status : string;
  v_paid_at : JsDateArg
}.

(** [data.metadata] of a webhook: an object, or a string to be parsed. *)
Inductive WebhookMetadata :=
| MetadataObject (m : gmap string string)
| MetadataString (s : string).

(** [payload.data] of a webhook. *)
Record ChargeData := {
  c_reference : string;
  c_metadata : WebhookMetadata;
  c_paid_at : JsDateArg
}.

Record WebhookPayload := {
  event : string;
  data : ChargeData
}.

(** Values of the schema-less [metadata] bag of a Payment. *)
Inductive MetaVal :=
| MetaStr (s : string)
| MetaVerification (d : VerificationData)
| MetaWebhook (d : ChargeData).

(** The User documents, with the paths the payment controller reads.  The
    User schema declares no [enrolledPrograms] path. *)
Record User := {
  user_id : ObjectId;
  user_email : string
}.

Record Application := {
  application_id : ObjectId;
  application_email : string;
  application_status : ApplicationStatus;
  paymentStatus : ApplicationPaymentStatus;
  application_payment : option ObjectId;
  application_program : string;
  application_track : string;
  (** the remaining paths of the schema (names, phone, motivation, ...) *)
  application_profile : list (string * string)
}.

Record Payment := {
  payment_id : ObjectId;
  payment_user : ObjectId;
  payment_application : ObjectId;
  track : string;
  program : string;
  amount : Z;
  currency : string;
  reference : string;
  status : PaymentStatus;
  paymentMethod : string;
  metadata : gmap string MetaVal;
  paidAt : option Z;
  verified : bool;
  expiresAt : Z
}.

(** A Payment document with [user] and [application] populated; a missing
    referent populates as [null]. *)
Record PopulatedPayment := {
  doc : Payment;
  populated_user : option User;
  populated_application : option Application
}.

Record Store := {
  payments : list Payment;
  applications : list Application;
  users : list User
}.

(** ** Errors and responses *)

Inductive Err := JsError (name message : string).

Definition error_message (e : Err) : string :=
  match e with JsError _ m => m end.

(** [{authorization_url, reference, access_code}] *)
Record CheckoutData := {
  authorization_url : string;
  checkout_reference : string;
  access_code : string
}.

(** The [{success, data | error}] objects of the payment service. *)
Inductive ServiceResult (T : Type) :=
| ServiceOk (d : T)
| ServiceFail (error : string).
Arguments ServiceOk {T} d.
Arguments ServiceFail {T} error.

Inductive Body :=
| BodyEmpty
| BodyError (error : string)
| BodyCheckout (d : CheckoutData)
| BodyPayment (p : PopulatedPayment) (redirectUrl : option string).

(** [res.status(code).json({success, message, ...})] *)
Record Response := {
  statusCode : Z;
  success : bool;
  message : option string;
  body : Body
}.

(** ** The awaited calls *)

(** The document handed to [Payment.create]. *)
Record PaymentDraft := {
  d_user : ObjectId;
  d_application : ObjectId;
  d_track : string;
  d_program : string;
  d_amount : Z;
  d_currency : string;
  d_reference : string;
  d_status : PaymentStatus;
  d_metadata : gmap string MetaVal
}.

(** The paths a [payment.save()] sends: the modified ones, and the
    [metadata] bag when the document was loaded without one. *)
Record PaymentPatch := {
  set_status : option PaymentStatus;
  set_paidAt : option Z;
  set_verified : option bool;
  set_reference : option string;
  set_metadata : option (gmap string MetaVal)
}.

(** The paths of an [Application.findByIdAndUpdate]. *)
Record ApplicationUpdate := {
  upd_status : option ApplicationStatus;
  upd_paymentStatus : option ApplicationPaymentStatus
}.

(** The argument of [paystackClient.transaction.initialize]. *)
Record InitializeArgs := {
  i_email : string;
  i_amount : Z;
  i_metadata : gmap string string;
  i_callback_url : string
}.

Inductive Call :=
| Application_findById (id : ObjectId)
| Payment_findOne_pending (application : ObjectId)
| Payment_findOne_reference (ref : string)
| User_findOne_email (email : string)
| Payment_create (d : PaymentDraft)
| payment_save (id : ObjectId) (patch : PaymentPatch)
| application_save (id : ObjectId) (link : option (option ObjectId))
| Payment_findByIdAndDelete (id : ObjectId)
| Application_findByIdAndUpdate (id : ObjectId) (upd : ApplicationUpdate)
| User_findByIdAndUpdate_addToSet (id : ObjectId) (elem : option ObjectId)
| paystack_transaction_initialize (args : InitializeArgs)
| paystack_transaction_verify (ref : string).

(** What each call resolves to; a rejected promise is an [inl]. *)
Definition Resp (c : Call) : Type :=
  match c with
  | Application_findById _ => option Application
  | Payment_findOne_pending _ => option Payment
  | Payment_findOne_reference _ => option PopulatedPayment
  | User_findOne_email _ => option User
  | Payment_create _ => Err + Payment
  | payment_save _ _ => Err + unit
  | application_save _ _ => Err + unit
  | Payment_findByIdAndDelete _ => unit
  | Application_findByIdAndUpdate _ _ => unit
  | User_findByIdAndUpdate_addToSet _ _ => unit
  | paystack_transaction_initialize _ => Err + CheckoutData
  | paystack_transaction_verify _ => Err + VerificationData
  end.

(** ** Programs: a free monad over the awaited calls *)

Inductive Prog (A : Type) : Type :=
| Ret (a : A)
| Throw (e : Err)
| Await (c : Call) (k : Resp c → Prog A).
Arguments Ret {A} a.
Arguments Throw {A} e.
Arguments Await {A} c k.

Fixpoint bind {A B} (p : Prog A) (f : A → Prog B) : Prog B :=
  match p with
  | Ret a => f a
  | Throw e => Throw e
  | Await c k => Await c (λ r, bind (k r) f)
  end.

#[global] Instance Prog_ret : MRet Prog := @Ret.
#[global] Instance Prog_bind : MBind Prog := λ A B f p, bind p f.

(** [try { p } catch (error) { h error }] *)
Fixpoint try_catch {A} (p : Prog A) (h : Err → Prog A) : Prog A :=
  match p with
  | Ret a => Ret a
  | Throw e => h e
  | Await c k => Await c (λ r, try_catch (k r) h)
  end.

(** [await c] *)
Definition perform (c : Call) : Prog (Resp c) := Await c Ret.

(** A rejected promise throws at its [await]. *)
Definition settle {T} (r : Err + T) : Prog T :=
  match r with inl e => Throw e | inr v => Ret v end.

(** ** The world outside the process and the environment *)

Record World := {
  (** [new Date()] / [Date.now()] *)
  now : Z;
  (** [Math.random().toString(36).substr(2, 9).toUpperCase()] *)
  random_suffix : string;
  (** the [_id] the driver generates for the next created document *)
  next_object_id : ObjectId;
  (** the gateway's answers *)
  gateway_initialize : InitializeArgs → Err + CheckoutData;
  gateway_verify : string → Err + VerificationData
}.

(** [process.env] *)
Record Env := {
  PAYSTACK_WEBHOOK_SECRET : option string;
  FRONTEND_URL : option string;
  NODE_ENV : option string
}.

(** ** The store: Mongoose operations on the three collections *)

Fixpoint update_first {A} (f : A → bool) (g : A → A) (l : list A) : list A :=
  match l with
  | [] => []
  | x :: l' => if f x then g x :: l' else x :: update_first f g l'
  end.

Fixpoint delete_first {A} (f : A → bool) (l : list A) : list A :=
  match l with
  | [] => []
  | x :: l' => if f x then l' else x :: delete_first f l'
  end.

Definition has_payment_id (id : ObjectId) (p : Payment) : bool :=
  bool_decide (payment_id p = id).
Definition has_application_id (id : ObjectId) (a : Application) : bool :=
  bool_decide (application_id a = id).
Definition has_user_id (id : ObjectId) (u : User) : bool :=
  bool_decide (user_id u = id).
Definition has_reference (ref : string) (p : Payment) : bool :=
  bool_decide (reference p = ref).

Definition findPaymentById (id : ObjectId) (st : Store) : option Payment :=
  List.find (has_payment_id id) (payments st).
Definition findApplicationById (id : ObjectId) (st : Store) : option Application :=
  List.find (has_application_id id) (applications st).
Definition findUserById (id : ObjectId) (st : Store) : option User :=
  List.find (has_user_id id) (users st).
Definition findPaymentByReference (ref : string) (st : Store) : option Payment :=
  List.find (has_reference ref) (payments st).

(** [Payment.findOne({ application, status: 'pending' })] *)
Definition findPendingPayment (app : ObjectId) (st : Store) : option Payment :=
  List.find (λ p, bool_decide (payment_application p = app)
                  && bool_decide (status p = Pending)) (payments st).

Definition findUserByEmail (email : string) (st : Store) : option User :=
  List.find (λ u, bool_decide (user_email u = email)) (users st).

(** [.populate('user').populate('application')] *)
Definition populate (st : Store) (p : Payment) : PopulatedPayment :=
  {| doc := p;
     populated_user := findUserById (payment_user p) st;
     populated_application := findApplicationById (payment_application p) st |}.

Definition with_payments (ps : list Payment) (st : Store) : Store :=
  {| payments := ps; applications := applications st; users := users st |}.
Definition with_applications (aps : list Application) (st : Store) : Store :=
  {| payments := payments st; applications := aps; users := users st |}.
Definition with_users (us : list User) (st : Store) : Store :=
  {| payments := payments st; applications := applications st; users := us |}.

Definition apply_payment_patch (patch : PaymentPatch) (p : Payment) : Payment :=
  {| payment_id := payment_id p;
     payment_user := payment_user p;
     payment_application := payment_application p;
     track := track p;
     program := program p;
     amount := amount p;
     currency := currency p;
     reference := default (reference p) (set_reference patch);
     status := default (status p) (set_status patch);
     paymentMethod := paymentMethod p;
     metadata := default (metadata p) (set_metadata patch);
     paidAt := match set_paidAt patch with Some t => Some t | None => paidAt p end;
     verified := default (verified p) (set_verified patch);
     expiresAt := expiresAt p |}.

Definition apply_application_update (upd : ApplicationUpdate) (a : Application)
  : Application :=
  {| application_id := application_id a;
     application_email := application_email a;
     application_status := default (application_status a) (upd_status upd);
     paymentStatus := default (paymentStatus a) (upd_paymentStatus upd);
     application_payment := application_payment a;
     application_program := application_program a;
     application_track := application_track a;
     application_profile := application_profile a |}.

Definition empty_patch (patch : PaymentPatch) : bool :=
  match set_status patch, set_paidAt patch, set_verified patch, set_reference patch,
        set_metadata patch with
  | None, None, None, None, None => true
  | _, _, _, _, _ => false
  end.

(** The document [Payment.create] stores: the draft plus the schema
    defaults ([paymentMethod], [verified], [expiresAt] 24 hours ahead). *)
Definition created_payment (w : World) (d : PaymentDraft) : Payment :=
  {| payment_id := next_object_id w;
     payment_user := d_user d;
     payment_application := d_application d;
     track := d_track d;
     program := d_program d;
     amount := d_amount d;
     currency := d_currency d;
     reference := d_reference d;
     status := d_status d;
     paymentMethod := "paystack";
     metadata := d_metadata d;
     paidAt := None;
     verified := false;
     expiresAt := now w + 24 * 60 * 60 * 1000 |}.

(** [Payment.create]: [track] and [program] are required, [reference] and
    [_id] are unique. *)
Definition store_create (w : World) (d : PaymentDraft) (st : Store)
  : (Err + Payment) * Store :=
  if bool_decide (d_track d = "") || bool_decide (d_program d = "") then
    (inl (JsError "ValidationError" "Payment validation failed"), st)
  else if existsb (has_reference (d_reference d)) (payments st)
          || existsb (has_payment_id (next_object_id w)) (payments st) then
    (inl (JsError "MongoServerError" "E11000 duplicate key error"), st)
  else
    let p := created_payment w d in
    (inr p, with_payments (payments st ++ [p]) st).

(** [payment.save()] of a loaded document: nothing is sent when no path
    was modified; the update fails when the document is gone or when the
    new reference is taken by another document. *)
Definition store_save_payment (id : ObjectId) (patch : PaymentPatch) (st : Store)
  : (Err + unit) * Store :=
  if empty_patch patch then (inr tt, st)
  else if negb (existsb (has_payment_id id) (payments st)) then
    (inl (JsError "DocumentNotFoundError" "No document found for query"), st)
  else
    match set_reference patch with
    | Some r =>
        if existsb (λ p, has_reference r p && negb (has_payment_id id p)) (payments st)
        then (inl (JsError "MongoServerError" "E11000 duplicate key error"), st)
        else (inr tt, with_payments
                        (update_first (has_payment_id id) (apply_payment_patch patch)
                                      (payments st)) st)
    | None =>
        (inr tt, with_payments
                   (update_first (has_payment_id id) (apply_payment_patch patch)
                                 (payments st)) st)
    end.

(** What [application.save()] rejects with.  The document was loaded by
    [Application.findById], which leaves [password] out ([select: false]),
    and [save()] validates the loaded paths before it writes: the validator
    of [confirmPassword] compares the stored value with [this.password],
    which is [undefined].  The message is the one for a document stored the
    way the application controller submits it, with every required path
    present. *)
Definition application_validation_error : Err :=
  JsError "ValidationError"
          "Application validation failed: confirmPassword: Passwords do not match".

(** [application.save()] after an assignment to [application.payment]: the
    validation fails whatever was assigned, and nothing is written. *)
Definition store_save_application (id : ObjectId) (link : option (option ObjectId))
    (st : Store) : (Err + unit) * Store :=
  (inl application_validation_error, st).

(** One awaited call against the store and the world.  The update
    [{ $addToSet: { enrolledPrograms: ... } }] names a path the User schema
    does not declare; Mongoose (strict by default) drops it from the update,
    so the call resolves and no User document changes. *)
Definition exec (w : World) (st : Store) (c : Call) : Resp c * Store :=
  match c return Resp c * Store with
  | Application_findById id => (findApplicationById id st, st)
  | Payment_findOne_pending app => (findPendingPayment app st, st)
  | Payment_findOne_reference ref =>
      (populate st <$> findPaymentByReference ref st, st)
  | User_findOne_email email => (findUserByEmail email st, st)
  | Payment_create d => store_create w d st
  | payment_save id patch => store_save_payment id patch st
  | application_save id link => store_save_application id link st
  | Payment_findByIdAndDelete id =>
      (tt, with_payments (delete_first (has_payment_id id) (payments st)) st)
  | Application_findByIdAndUpdate id upd =>
      (tt, with_applications
             (update_first (has_application_id id) (apply_application_update upd)
                           (applications st)) st)
  | User_findByIdAndUpdate_addToSet id elem => (tt, st)
  | paystack_transaction_initialize args => (gateway_initialize w args, st)
  | paystack_transaction_verify ref => (gateway_verify w ref, st)
  end.

(** Running a program to completion: the outcome, the final store and the
    calls it awaited, in order. *)
Fixpoint run {A} (w : World) (p : Prog A) (st : Store)
  : (Err + A) * Store * list Call :=
  match p with
  | Ret a => (inr a, st, [])
  | Throw e => (inl e, st, [])
  | Await c k =>
      let '(r, st') := exec w st c in
      let '(out, st'', log) := run w (k r) st' in
      (out, st'', c :: log)
  end.

(** One step of a program: up to and including its next awaited call. *)
Definition step {A} (w : World) (p : Prog A) (st : Store)
  : Prog A * Store * list Call :=
  match p with
  | Await c k => let '(r, st') := exec w st c in (k r, st', [c])
  | _ => (p, st, [])
  end.

(** The event loop: the schedule names the request that resumes next; each
    request runs from one [await] to the next without interruption. *)
Fixpoint interleave {A} (w : World) (schedule : list nat) (pool : list (Prog A))
    (st : Store) : list (Prog A) * Store * list Call :=
  match schedule with
  | [] => (pool, st, [])
  | i :: rest =>
      match pool !! i with
      | None => interleave w rest pool st
      | Some p =>
          let '(p', st', l) := step w p st in
          let '(pool', st'', log) := interleave w rest (<[i := p']> pool) st' in
          (pool', st'', l ++ log)
      end
  end.

(** ** JavaScript odds and ends *)

(** [m || d] on strings: the empty string is falsy. *)
Definition or_default (m d : string) : string :=
  if bool_decide (m = "") then d else m.

(** [`${v}`] of an environment variable: a missing one prints as
    [undefined]. *)
Definition template (v : option string) : string := default "undefined" v.

(** [!v] of an environment variable: missing or empty. *)
Definition falsy (v : option string) : bool :=
  match v with
  | None => true
  | Some s => bool_decide (s = "")
  end.

(** [id.toString()] *)
Definition ObjectId_toString (id : ObjectId) : string := pretty id.

(** The path a [save()] sends for an assignment: none when the assigned
    value equals the loaded one. *)
Definition changed {A} `{EqDecision A} (old new : A) : option A :=
  if decide (old = new) then None else Some new.

(** [`PAY-${Date.now()}-${Math.random()...}`], the locally generated
    placeholder reference. *)
Definition placeholder_reference (now : Z) (suffix : string) : string :=
  "PAY-" +:+ pretty now +:+ "-" +:+ suffix.

(** What the runtime provides and the model does not look into. *)
Class Platform := {
  (** [crypto.createHmac('sha512', key).update(msg).digest('hex')] *)
  hmac_sha512_hex : string → string → string;
  (** [JSON.stringify(payload)] *)
  JSON_stringify : WebhookPayload → string;
  (** whether [JSON.parse(s)] returns rather than throws *)
  JSON_parse_ok : string → bool
}.

(** ** services/paymentService.js *)

Record PaymentData := {
  pd_email : string;
  pd_amount : Z;
  pd_metadata : gmap string string
}.

Module PaymentService.

(** Initialize a payment transaction. [Math.round] is the identity on
    the integer amounts of the model. *)
Definition initializePayment (env : Env) (paymentData : PaymentData)
  : Prog (ServiceResult CheckoutData) :=
  try_catch
    (r ← perform (paystack_transaction_initialize
                    {| i_email := pd_email paymentData;
                       i_amount := pd_amount paymentData;
                       i_metadata := pd_metadata paymentData;
                       i_callback_url := template (FRONTEND_URL env) |});
     response ← settle r;
     mret (ServiceOk response))
    (λ error,
       mret (ServiceFail (or_default (error_message error)
                                     "Payment initialization failed"))).

(** Verify a payment transaction. *)
Definition verifyPayment (ref : string) : Prog (ServiceResult VerificationData) :=
  try_catch
    (r ← perform (paystack_transaction_verify ref);
     response ← settle r;
     mret (ServiceOk response))
    (λ error,
       mret (ServiceFail (or_default (error_message error)
                                     "Payment verification failed"))).

(** Verify webhook signature. *)
Definition verifyWebhookSignature `{Platform} (env : Env)
    (payload : WebhookPayload) (signature : option string) : bool :=
  if falsy (PAYSTACK_WEBHOOK_SECRET env) then true
  else
    let hash := hmac_sha512_hex (default "" (PAYSTACK_WEBHOOK_SECRET env))
                                (JSON_stringify payload) in
    bool_decide (Some hash = signature).

End PaymentService.

(** ** controllers/paymentController.js *)

(** [req.body] of an initialize request; amounts are whole numbers. *)
Record InitializeRequest := {
  applicationId : ObjectId;
  req_program : string;
  req_track : string;
  req_amount : Z;
  req_email : string;
  req_metadata : gmap string string
}.

Record VerifyRequest := {
  query_reference : option string
}.

Record WebhookRequest := {
  x_paystack_signature : option string;
  req_body : WebhookPayload
}.

(** The receiver a method runs with: the controller instance when it is
    called as [paymentController.m(...)], [undefined] when the function is
    detached from it and called by the router. *)
Inductive ThisBinding := ThisController | ThisUndefined.

Definition json (code : Z) (ok : bool) (msg : option string) (b : Body) : Response :=
  {| statusCode := code; success := ok; message := msg; body := b |}.

Definition server_error (error : Err) : Prog Response :=
  mret (json 500 false (Some "Server error") (BodyError (error_message error))).

Definition null_id_error : Err :=
  JsError "TypeError" "Cannot read properties of null (reading '_id')".

Definition date_cast_error : Err :=
  JsError "ValidationError" "Payment validation failed: paidAt: Cast to date failed".

(** The in-memory document after the assignments of a reconciliation. *)
Definition settled_doc (p : Payment) (s : PaymentStatus) (t : Z)
    (key : string) (v : MetaVal) : Payment :=
  {| payment_id := payment_id p;
     payment_user := payment_user p;
     payment_application := payment_application p;
     track := track p;
     program := program p;
     amount := amount p;
     currency := currency p;
     reference := reference p;
     status := s;
     paymentMethod := paymentMethod p;
     metadata := <[key := v]> (metadata p);
     paidAt := Some t;
     verified := true;
     expiresAt := expiresAt p |}.

(** The paths [payment.save()] sends after those assignments.  The
    in-place change of a stored [metadata] bag is not tracked, so a stored
    bag is not sent; a document loaded without one got the schema default
    [{}], and a defaulted path is sent with what it holds at the save: the
    bag with the one key just assigned. *)
Definition settle_patch (p : Payment) (s : PaymentStatus) (t : Z)
    (key : string) (v : MetaVal) : PaymentPatch :=
  {| set_status := changed (status p) s;
     set_paidAt := if decide (paidAt p = Some t) then None else Some t;
     set_verified := changed (verified p) true;
     set_reference := None;
     set_metadata := if decide (metadata p = ∅) then Some {[ key := v ]} else None |}.

(** The paths sent after an assignment to [status] alone.  (A document
    loaded without a [metadata] bag sends its empty default as well, which
    the model does not tell from no bag.) *)
Definition status_patch (p : Payment) (s : PaymentStatus) : PaymentPatch :=
  {| set_status := changed (status p) s;
     set_paidAt := None;
     set_verified := None;
     set_reference := None;
     set_metadata := None |}.

Definition reference_patch (p : Payment) (r : string) : PaymentPatch :=
  {| set_status := None;
     set_paidAt := None;
     set_verified := None;
     set_reference := changed (reference p) r;
     set_metadata := None |}.

Definition enrolled_paid : ApplicationUpdate :=
  {| upd_status := Some AppEnrolled; upd_paymentStatus := Some PayPaid |}.

Definition payment_failed : ApplicationUpdate :=
  {| upd_status := None; upd_paymentStatus := Some PayFailed |}.

Module PaymentController.

(** The tail of [initializePayment] from [User.findOne] on: create a new
    payment record, link it, open the checkout session, and undo both
    when the gateway refuses. *)
Definition initializePayment_create (w : World) (env : Env)
    (req : InitializeRequest) (application : Application) : Prog Response :=
  findUser ← perform (User_findOne_email (req_email req));
  match findUser with
  | None => mret (json 404 false (Some "User not found") BodyEmpty)
  | Some findUser =>
      r ← perform (Payment_create
             {| d_user := user_id findUser;
                d_application := applicationId req;
                d_track := req_track req;
                d_program := req_program req;
                d_amount := req_amount req * 100;
                d_currency := "NGN";
                d_reference := placeholder_reference (now w) (random_suffix w);
                d_status := Pending;
                d_metadata :=
                  <["applicationId" := MetaStr (ObjectId_toString (applicationId req))]>
                    (MetaStr <$> req_metadata req) |});
      payment ← settle r;
      r ← perform (application_save (application_id application)
             (changed (application_payment application) (Some (payment_id payment))));
      _ ← settle r;
      paymentResult ← PaymentService.initializePayment env
             {| pd_email := req_email req;
                pd_amount := req_amount req * 100;
                pd_metadata :=
                  {[ "paymentId" := ObjectId_toString (payment_id payment);
                     "applicationId" := ObjectId_toString (applicationId req);
                     "track" := req_track req;
                     "program" := req_program req ]} |};
      match paymentResult with
      | ServiceFail error =>
          _ ← perform (Payment_findByIdAndDelete (payment_id payment));
          r ← perform (application_save (application_id application)
                 (changed (Some (payment_id payment)) None));
          _ ← settle r;
          mret (json 500 false (Some "Payment initialization failed") (BodyError error))
      | ServiceOk d =>
          r ← perform (payment_save (payment_id payment)
                 (reference_patch payment (checkout_reference d)));
          _ ← settle r;
          mret (json 200 true (Some "Payment initialized successfully") (BodyCheckout d))
      end
  end.

(** Initialize payment for application. *)
Definition initializePayment (w : World) (env : Env) (req : InitializeRequest)
  : Prog Response :=
  try_catch
    (application ← perform (Application_findById (applicationId req));
     match application with
     | None => mret (json 404 false (Some "Application not found") BodyEmpty)
     | Some application =>
         existingPayment ← perform (Payment_findOne_pending (applicationId req));
         match existingPayment with
         | Some existingPayment =>
             if bool_decide (expiresAt existingPayment < now w) then
               r ← perform (payment_save (payment_id existingPayment)
                      (status_patch existingPayment Expired));
               _ ← settle r;
               initializePayment_create w env req application
             else
               paymentResult ← PaymentService.initializePayment env
                      {| pd_email := req_email req;
                         pd_amount := req_amount req * 100;
                         pd_metadata :=
                           <["applicationId" := ObjectId_toString (applicationId req)]>
                             (<["paymentId" := ObjectId_toString (payment_id existingPayment)]>
                                (req_metadata req)) |};
               match paymentResult with
               | ServiceFail error =>
                   mret (json 500 false (Some "Payment initialization failed")
                              (BodyError error))
               | ServiceOk d =>
                   mret (json 200 true (Some "Payment initialized successfully")
                              (BodyCheckout d))
               end
         | None => initializePayment_create w env req application
         end
     end)
    server_error.

(** The part of [verifyPayment] after the gateway answered: update the
    payment record, then the application and the user. *)
Definition verifyPayment_settle (env : Env) (payment : PopulatedPayment)
    (verificationData : VerificationData) : Prog Response :=
  let s := if bool_decide (v_status verificationData = "success")
           then Success else Failed in
  match new_Date (v_paid_at verificationData) with
  | InvalidDate => Throw date_cast_error
  | ValidDate t =>
      let payment' :=
        {| doc := settled_doc (doc payment) s t "paystackData"
                              (MetaVerification verificationData);
           populated_user := populated_user payment;
           populated_application := populated_application payment |} in
      r ← perform (payment_save (payment_id (doc payment))
                                 (settle_patch (doc payment) s t "paystackData"
                                               (MetaVerification verificationData)));
      _ ← settle r;
      if bool_decide (s = Success) then
        match populated_application payment with
        | None => Throw null_id_error
        | Some application =>
            _ ← perform (Application_findByIdAndUpdate (application_id application)
                                                        enrolled_paid);
            match populated_user payment with
            | None => Throw null_id_error
            | Some user =>
                _ ← perform (User_findByIdAndUpdate_addToSet (user_id user)
                                (Some (application_id application)));
                mret (json 200 true (Some "Payment verified successfully")
                           (BodyPayment payment'
                              (Some (template (FRONTEND_URL env) +:+ "/dashboard"))))
            end
        end
      else
        match populated_application payment with
        | None => Throw null_id_error
        | Some application =>
            _ ← perform (Application_findByIdAndUpdate (application_id application)
                                                        payment_failed);
            mret (json 400 false (Some "Payment was not successful")
                       (BodyPayment payment' None))
        end
  end.

(** Verify payment. *)
Definition verifyPayment (env : Env) (req : VerifyRequest) : Prog Response :=
  try_catch
    (if falsy (query_reference req) then
       mret (json 400 false (Some "Payment reference is required") BodyEmpty)
     else
       let ref := default "" (query_reference req) in
       payment ← perform (Payment_findOne_reference ref);
       match payment with
       | None => mret (json 404 false (Some "Payment not found") BodyEmpty)
       | Some payment =>
           if verified (doc payment) then
             mret (json 200 true (Some "Payment already verified")
                        (BodyPayment payment None))
           else
             verificationResult ← PaymentService.verifyPayment ref;
             match verificationResult with
             | ServiceFail error =>
                 mret (json 400 false (Some "Payment verification failed")
                            (BodyError error))
             | ServiceOk verificationData =>
                 verifyPayment_settle env payment verificationData
             end
       end)
    server_error.

(** Process successful charge from webhook.  The parsed metadata is not
    used, and the in-memory document is not returned. *)
Definition processSuccessfulCharge `{Platform} (d : ChargeData) : Prog unit :=
  try_catch
    (_ ← match c_metadata d with
         | MetadataString s =>
             if JSON_parse_ok s then mret tt
             else Throw (JsError "SyntaxError" "Unexpected token in JSON")
         | MetadataObject _ => mret tt
         end;
     payment ← perform (Payment_findOne_reference (c_reference d));
     match payment with
     | None => mret tt
     | Some payment =>
         match new_Date (c_paid_at d) with
         | InvalidDate => Throw date_cast_error
         | ValidDate t =>
             r ← perform (payment_save (payment_id (doc payment))
                                        (settle_patch (doc payment) Success t
                                                      "paystackWebhookData"
                                                      (MetaWebhook d)));
             _ ← settle r;
             _ ← match populated_application payment with
                 | Some application =>
                     perform (Application_findByIdAndUpdate
                                (application_id application) enrolled_paid)
                 | None => mret tt
                 end;
             match populated_user payment with
             | None => Throw null_id_error
             | Some user =>
                 perform (User_findByIdAndUpdate_addToSet (user_id user)
                            (application_id <$> populated_application payment))
             end
         end
     end)
    (λ error, Throw error).

(** [this.processSuccessfulCharge(data)] *)
Definition this_processSuccessfulCharge `{Platform} (this : ThisBinding)
    (d : ChargeData) : Prog unit :=
  match this with
  | ThisController => processSuccessfulCharge d
  | ThisUndefined =>
      Throw (JsError "TypeError"
        "Cannot read properties of undefined (reading 'processSuccessfulCharge')")
  end.

(** [this.processSuccessfulTransfer(data)] and
    [this.processFailedPayment(data)]: the class declares neither
    method. *)
Definition this_missing_method (this : ThisBinding) (method : string) : Prog unit :=
  match this with
  | ThisController =>
      Throw (JsError "TypeError" ("this." +:+ method +:+ " is not a function"))
  | ThisUndefined =>
      Throw (JsError "TypeError"
        ("Cannot read properties of undefined (reading '" +:+ method +:+ "')"))
  end.

(** Handle Paystack webhook. *)
Definition handleWebhook `{Platform} (this : ThisBinding) (env : Env)
    (req : WebhookRequest) : Prog Response :=
  try_catch
    (let signature := x_paystack_signature req in
     let payload := req_body req in
     let isValid := PaymentService.verifyWebhookSignature env payload signature in
     if negb isValid then
       mret (json 401 false None (BodyError "Invalid signature"))
     else
       _ ← (if bool_decide (event payload = "charge.success") then
              this_processSuccessfulCharge this (data payload)
            else if bool_decide (event payload = "transfer.success") then
              this_missing_method this "processSuccessfulTransfer"
            else if bool_decide (event payload = "invoice.payment_failed") then
              this_missing_method this "processFailedPayment"
            else mret tt);
       mret (json 200 true None BodyEmpty))
    (λ error, mret (json 500 false None (BodyError (error_message error)))).

End PaymentController.

(** ** routes/paymentRoutes.js

    The router is handed the bare functions, [router.post('/webhook',
    paymentController.handleWebhook)], and calls them without a receiver. *)
Module paymentRoutes.

Definition post_webhook `{Platform} (env : Env) (req : WebhookRequest) : Prog Response :=
  PaymentController.handleWebhook ThisUndefined env req.

Definition post_initialize (w : World) (env : Env) (req : InitializeRequest)
  : Prog Response :=
  PaymentController.initializePayment w env req.

Definition get_verify (env : Env) (req : VerifyRequest) : Prog Response :=
  PaymentController.verifyPayment env req.

End paymentRoutes.

(** ** What a run did, read off its log *)

(** A cascade step on the Application. *)
Definition is_application_cascade (c : Call) : bool :=
  match c with Application_findByIdAndUpdate _ _ => true | _ => false end.

(** A cascade step on the User. *)
Definition is_user_cascade (c : Call) : bool :=
  match c with User_findByIdAndUpdate_addToSet _ _ => true | _ => false end.

(** A [save()] that commits a terminal status. *)
Definition is_terminal_transition (c : Call) : bool :=
  match c with
  | payment_save _ patch =>
      match set_status patch with Some s => terminal s | None => false end
  | _ => false
  end.

(** A [Payment.create]. *)
Definition is_create (c : Call) : bool :=
  match c with Payment_create _ => true | _ => false end.

(** A [Payment.findByIdAndDelete], the compensating delete. *)
Definition is_delete (c : Call) : bool :=
  match c with Payment_findByIdAndDelete _ => true | _ => false end.

(** A request to the gateway for a checkout session. *)
Definition is_checkout_session (c : Call) : bool :=
  match c with paystack_transaction_initialize _ => true | _ => false end.

(** A call that asks the store to write. *)
Definition is_write (c : Call) : bool :=
  match c with
  | Payment_create _ | payment_save _ _ | application_save _ _
  | Payment_findByIdAndDelete _ | Application_findByIdAndUpdate _ _
  | User_findByIdAndUpdate_addToSet _ _ => true
  | _ => false
  end.

Definition count (f : Call → bool) (log : list Call) : nat :=
  length (List.filter f log).

(** Two requests, the second starting when the first has responded. *)
Definition run_twice {A B} (w : World) (p : Prog A) (q : Prog B) (st : Store)
  : (Err + A) * (Err + B) * Store * list Call :=
  let '(o1, st1, l1) := run w p st in
  let '(o2, st2, l2) := run w q st1 in
  (o1, o2, st2, l1 ++ l2).

(** The row [Payment.create] stores for an initialize request: the draft
    of the controller with the locally generated placeholder reference,
    plus the schema defaults. *)
Definition placeholder_payment (w : World) (req : InitializeRequest) (u : User)
  : Payment :=
  {| payment_id := next_object_id w;
     payment_user := user_id u;
     payment_application := applicationId req;
     track := req_track req;
     program := req_program req;
     amount := req_amount req * 100;
     currency := "NGN";
     reference := placeholder_reference (now w) (random_suffix w);
     status := Pending;
     paymentMethod := "paystack";
     metadata :=
       <["applicationId" := MetaStr (ObjectId_toString (applicationId req))]>
         (MetaStr <$> req_metadata req);
     paidAt := None;
     verified := false;
     expiresAt := now w + 24 * 60 * 60 * 1000 |}.

(** ** A sample deployment

    The example of the specification: Payment [P1] with reference
    ["PAY-1"] and amount 500000, its Application and its User. *)

(** A runtime for the examples; the handlers only compare the digest with
    the header, so any functions do. *)
Definition sample_platform : Platform :=
  {| hmac_sha512_hex key msg := "hmac(" +:+ key +:+ "," +:+ msg +:+ ")";
     JSON_stringify payload := event payload +:+ ":" +:+ c_reference (data payload);
     JSON_parse_ok s := bool_decide (s = "{}") |}.

Definition P1 : Payment :=
  {| payment_id := 10%N;
     payment_user := 1%N;
     payment_application := 5%N;
     track := "devops";
     program := "launchpad";
     amount := 500000;
     currency := "NGN";
     reference := "PAY-1";
     status := Pending;
     paymentMethod := "paystack";
     metadata := ∅;
     paidAt := None;
     verified := false;
     expiresAt := 86400000 |}.

Definition A5 : Application :=
  {| application_id := 5%N;
     application_email := "ada@example.com";
     application_status := AppPending;
     paymentStatus := PayPending;
     application_payment := Some 10%N;
     application_program := "launchpad";
     application_track := "devops";
     application_profile := [("firstName", "Ada"); ("lastName", "Obi")] |}.

Definition U1 : User :=
  {| user_id := 1%N; user_email := "ada@example.com" |}.

Definition sample_store : Store :=
  {| payments := [P1]; applications := [A5]; users := [U1] |}.

Definition with_status (s : PaymentStatus) (p : Payment) : Payment :=
  apply_payment_patch
    {| set_status := Some s; set_paidAt := None;
       set_verified := None; set_reference := None; set_metadata := None |} p.

(** The same deployment a day later, after [initializePayment] found [P1]
    overdue and marked it expired. *)
Definition expired_store : Store :=
  with_payments [with_status Expired P1] sample_store.

(** The same deployment with the User document removed. *)
Definition orphan_store : Store := with_users [] sample_store.

Definition production (secret : option string) : Env :=
  {| PAYSTACK_WEBHOOK_SECRET := secret;
     FRONTEND_URL := Some "https://academy.example";
     NODE_ENV := Some "production" |}.

Definition paid_at_noon : JsDateArg := JsDateString (Some 1700000000000).

(** [P1] was created at time 0 and is due 24 hours later; [soon] is before
    that, [next_day] after. *)
Definition soon : Z := 1000.
Definition next_day : Z := 90000000.

(** A world whose gateway reports every transaction paid and issues the
    reference ["T2"] for a new checkout session. *)
Definition paying_world_at (t : Z) : World :=
  {| now := t;
     random_suffix := "K3J2H1G0F";
     next_object_id := 11%N;
     gateway_initialize := λ _,
       inr {| authorization_url := "https://checkout.paystack.com/abc";
              checkout_reference := "T2";
              access_code := "abc" |};
     gateway_verify := λ _,
       inr {| v_status := "success"; v_paid_at := paid_at_noon |} |}.

Definition paying_world : World := paying_world_at soon.

(** A world whose gateway reports every transaction failed, with no
    payment date, and refuses to open checkout sessions. *)
Definition failing_world_at (t : Z) : World :=
  {| now := t;
     random_suffix := "K3J2H1G0F";
     next_object_id := 11%N;
     gateway_initialize := λ _, inl (JsError "Error" "connect ETIMEDOUT");
     gateway_verify := λ _,
       inr {| v_status := "failed"; v_paid_at := JsNull |} |}.

Definition failing_world : World := failing_world_at soon.

Definition charge_success_PAY1 : WebhookPayload :=
  {| event := "charge.success";
     data := {| c_reference := "PAY-1";
                c_metadata := MetadataObject ∅;
                c_paid_at := paid_at_noon |} |}.

(** A webhook signed with the secret ["whsec"]. *)
Definition signed_webhook (payload : WebhookPayload) : WebhookRequest :=
  {| x_paystack_signature :=
       Some (@hmac_sha512_hex sample_platform "whsec"
               (@JSON_stringify sample_platform payload));
     req_body := payload |}.

(** A webhook without a signature header. *)
Definition unsigned_webhook (payload : WebhookPayload) : WebhookRequest :=
  {| x_paystack_signature := None; req_body := payload |}.

Definition verify_PAY1 : VerifyRequest := {| query_reference := Some "PAY-1" |}.

Definition initialize_A5 : InitializeRequest :=
  {| applicationId := 5%N;
     req_program := "launchpad";
     req_track := "devops";
     req_amount := 5000;
     req_email := "ada@example.com";
     req_metadata := ∅ |}.

(** The status code of a handler's outcome (handlers catch everything, so
    the outcome is a response). *)
Definition status_of (o : Err + Response) : option Z :=
  match o with inr resp => Some (statusCode resp) | inl _ => None end.

Definition acknowledged : Response := json 200 true None BodyEmpty.

(** The status code a request of a pool has answered with. *)
Definition responded (p : Prog Response) : option Z :=
  match p with Ret resp => Some (statusCode resp) | _ => None end.

Definition stored_status (ref : string) (st : Store) : option PaymentStatus :=
  status <$> findPaymentByReference ref st.

Definition stored_paidAt (ref : string) (st : Store) : option (option Z) :=
  paidAt <$> findPaymentByReference ref st.

(** [paymentController.handleWebhook(req, res)] on a correctly signed
    [charge.success] for ["PAY-1"]. *)
Definition webhook_PAY1 : Prog Response :=
  @PaymentController.handleWebhook sample_platform ThisController
    (production (Some "whsec")) (signed_webhook charge_success_PAY1).

(** The same delivery through the router. *)
Definition routed_webhook_PAY1 : Prog Response :=
  @paymentRoutes.post_webhook sample_platform
    (production (Some "whsec")) (signed_webhook charge_success_PAY1).

Definition get_verify_PAY1 : Prog Response :=
  paymentRoutes.get_verify (production (Some "whsec")) verify_PAY1.

(** [P1] after the verify endpoint reconciled a successful outcome. *)
Definition P1_settled : Payment :=
  apply_payment_patch
    {| set_status := Some Success; set_paidAt := Some 1700000000000;
       set_verified := Some true; set_reference := None;
       set_metadata :=
         Some {[ "paystackData" :=
                   MetaVerification {| v_status := "success";
                                       v_paid_at := paid_at_noon |} ]} |} P1.

Definition settled_store : Store := with_payments [P1_settled] sample_store.

(** A world whose gateway cannot be reached. *)
Definition unreachable_world : World :=
  {| now := 1000;
     random_suffix := "K3J2H1G0F";
     next_object_id := 11%N;
     gateway_initialize := λ _, inl (JsError "Error" "connect ETIMEDOUT");
     gateway_verify := λ _, inl (JsError "Error" "connect ETIMEDOUT") |}.

(** ** What a program may await *)

(** Every call the program can come to await satisfies [P], whatever the
    earlier calls resolved to. *)
Inductive calls_only {A} (P : Call → Prop) : Prog A → Prop :=
| calls_only_Ret (a : A) : calls_only P (Ret a)
| calls_only_Throw (e : Err) : calls_only P (Throw e)
| calls_only_Await (c : Call) (k : Resp c → Prog A) :
    P c → (∀ r, calls_only P (k r)) → calls_only P (Await c k).

(** The paths of a Payment that identify it and say what is owed: all but
    [status], [paidAt], [verified] and the [metadata] bag. *)
Definition payment_frame (p : Payment)
  : ObjectId * ObjectId * ObjectId * string * string * Z * string * string
    * string * Z :=
  (payment_id p, payment_user p, payment_application p, track p, program p,
   amount p, currency p, reference p, paymentMethod p, expiresAt p).

(** The paths of an Application other than [status] and [paymentStatus]. *)
Definition application_frame (a : Application)
  : ObjectId * string * option ObjectId * string * string * list (string * string) :=
  (application_id a, application_email a, application_payment a,
   application_program a, application_track a, application_profile a).

(** What a reconciliation leaves alone. *)
Definition store_frame (st : Store) :=
  (payment_frame <$> payments st, application_frame <$> applications st, users st).

(** Calls that neither add nor remove a Payment nor rewrite its
    reference. *)
Definition keeps_frame (c : Call) : Prop :=
  match c with
  | Payment_create _ | Payment_findByIdAndDelete _ => False
  | payment_save _ patch => set_reference patch = None
  | _ => True
  end.

(** The arguments of the checkout session the re-use branch of
    [initializePayment] opens for an existing Payment. *)
Definition reuse_args (env : Env) (req : InitializeRequest) (existingPayment : Payment)
  : InitializeArgs :=
  {| i_email := req_email req;
     i_amount := req_amount req * 100;
     i_metadata :=
       <["applicationId" := ObjectId_toString (applicationId req)]>
         (<["paymentId" := ObjectId_toString (payment_id existingPayment)]>
            (req_metadata req));
     i_callback_url := template (FRONTEND_URL env) |}.

(** ** routes/paymentRoutes.js: the route table

    The router tries its routes in the order of registration; a route
    matches when it handles the method and its path pattern matches; every
    handler of this router answers without calling [next], so the first
    matching route is the one that serves the request.  Paths are relative
    to the mount point and matched the way Express compiles a pattern by
    default: ignoring case, one optional trailing slash. *)

Inductive Method := GET | POST | PUT | PATCH | DELETE | HEAD.

#[global] Instance Method_eq_dec : EqDecision Method.
Proof. solve_decision. Defined.

(** A route registered with [router.get] also serves [HEAD]. *)
Definition handles_method (route_method m : Method) : bool :=
  bool_decide (route_method = m)
  || (bool_decide (m = HEAD) && bool_decide (route_method = GET)).

(** Folding an ASCII capital to its small letter, other bytes as they
    are. *)
Definition lower (c : ascii) : ascii :=
  let n := nat_of_ascii c in
  if ((65 <=? n) && (n <=? 90))%nat then ascii_of_nat (n + 32) else c.

Fixpoint to_lower (s : string) : string :=
  match s with
  | EmptyString => EmptyString
  | String c s' => String (lower c) (to_lower s')
  end.

Definition is_slash (c : ascii) : bool := Ascii.eqb c "/"%char.

Fixpoint no_slash (s : string) : bool :=
  match s with
  | EmptyString => true
  | String c s' => negb (is_slash c) && no_slash s'
  end.

(** Dropping the one optional trailing slash. *)
Fixpoint strip_trailing_slash (s : string) : string :=
  match s with
  | EmptyString => EmptyString
  | String c s' =>
      match s' with
      | EmptyString => if is_slash c then EmptyString else s
      | String _ _ => String c (strip_trailing_slash s')
      end
  end.

(** ['/name'], compiled to [/^\/name\/?$/i]. *)
Definition match_literal (name path : string) : bool :=
  String.eqb (to_lower path) ("/" +:+ to_lower name)
  || String.eqb (to_lower path) ("/" +:+ to_lower name +:+ "/").

(** ['/:param'], compiled to [/^\/(?:([^\/]+?))\/?$/i]: the captured
    segment (before URI decoding). *)
Definition match_parameter (path : string) : option string :=
  match path with
  | EmptyString => None
  | String c rest =>
      if is_slash c then
        let segment := strip_trailing_slash rest in
        if negb (String.eqb segment "") && no_slash segment then Some segment
        else None
      else None
  end.

Inductive PathPattern := Literal (name : string) | AnySegment.

(** The methods of the payment controller. *)
Inductive Endpoint :=
| handleWebhook_endpoint
| initializePayment_endpoint
| verifyPayment_endpoint
| getPaymentHistory_endpoint
| getPaymentDetails_endpoint
| checkPendingPayments_endpoint.

#[global] Instance Endpoint_eq_dec : EqDecision Endpoint.
Proof. solve_decision. Defined.

(** [router.post('/webhook', ...)] ... [router.get('/pending', ...)], in
    the order of the file. *)
Definition payment_router : list (Method * PathPattern * Endpoint) :=
  [ (POST, Literal "webhook", handleWebhook_endpoint);
    (POST, Literal "initialize", initializePayment_endpoint);
    (GET, Literal "verify", verifyPayment_endpoint);
    (GET, Literal "history", getPaymentHistory_endpoint);
    (GET, AnySegment, getPaymentDetails_endpoint);
    (GET, Literal "pending", checkPendingPayments_endpoint) ].

(** Whether the pattern matches, with the captured parameter. *)
Definition match_path (pattern : PathPattern) (path : string) : option (option string) :=
  match pattern with
  | Literal name => if match_literal name path then Some None else None
  | AnySegment => Some <$> match_parameter path
  end.

(** The endpoint that serves a request, with [req.params.paymentId]. *)
Fixpoint dispatch (routes : list (Method * PathPattern * Endpoint))
    (m : Method) (path : string) : option (Endpoint * option string) :=
  match routes with
  | [] => None
  | (route_method, pattern, endpoint) :: rest =>
      if handles_method route_method m then
        match match_path pattern path with
        | Some param => Some (endpoint, param)
        | None => dispatch rest m path
        end
      else dispatch rest m path
  end.

(** ** middleware/errorHandler.js *)

(** The fields of a thrown error the handler reads; [err.errors] and
    [err.keyPattern] may be missing. *)
Record ErrorObject := {
  err_name : string;
  err_message : string;
  err_kind : option string;
  err_code : option Z;
  (** [Object.values(err.errors)] as [(path, message)] pairs *)
  err_errors : option (list (string * string));
  (** [Object.keys(err.keyPattern)] *)
  err_keyPattern : option (list string);
  err_stack : string
}.

(** The [error] member of the response: the details array, the message,
    or [undefined]. *)
Inductive ErrorMember :=
| ErrorDetails (details : list (option string * string))
| ErrorMessage (m : string)
| ErrorUndefined.

Record ErrorResponse := {
  er_status : Z;
  er_message : string;
  er_error : ErrorMember;
  er_stack : option string
}.

Definition development (env : Env) : bool :=
  bool_decide (NODE_ENV env = Some "development").

(** [notFound]: the error it hands to [next], after [res.status(404)]. *)
Definition notFound (originalUrl : string) : ErrorObject * Z :=
  ({| err_name := "Error";
      err_message := "Not Found - " +:+ originalUrl;
      err_kind := None;
      err_code := None;
      err_errors := None;
      err_keyPattern := None;
      err_stack := "Error: Not Found - " +:+ originalUrl |},
   404).

Definition undefined_read (what : string) : Err :=
  JsError "TypeError" ("Cannot convert undefined or null to object: " +:+ what).

(** [errorHandler(err, req, res, next)], given [res.statusCode]: the
    response it sends, or the error it throws itself. *)
Definition errorHandler (env : Env) (err : ErrorObject) (res_statusCode : Z)
  : Err + ErrorResponse :=
  let statusCode := if bool_decide (res_statusCode = 200) then 500 else res_statusCode in
  let respond (code : Z) (msg : string) (errorDetails : option (list (option string * string))) :=
    inr {| er_status := code;
           er_message := msg;
           er_error :=
             match errorDetails with
             | Some details => ErrorDetails details
             | None => if development env then ErrorMessage (err_message err)
                       else ErrorUndefined
             end;
           er_stack := if development env then Some (err_stack err) else None |} in
  if bool_decide (err_name err = "ValidationError") then
    match err_errors err with
    | None => inl (undefined_read "err.errors")
    | Some errors =>
        respond 400 "Validation Error"
                (Some ((λ '(path, m), (Some path, m)) <$> errors))
    end
  else if bool_decide (err_name err = "CastError")
          && bool_decide (err_kind err = Some "ObjectId") then
    respond 404 "Resource not found" None
  else if bool_decide (err_code err = Some 11000) then
    match err_keyPattern err with
    | None => inl (undefined_read "err.keyPattern")
    | Some keys =>
        let field := head keys in
        respond 409 "Duplicate field value entered"
                (Some [(field, template field +:+ " already exists")])
    end
  else if bool_decide (err_name err = "JsonWebTokenError") then
    respond 401 "Invalid token" None
  else if bool_decide (err_name err = "TokenExpiredError") then
    respond 401 "Token expired" None
  else respond statusCode (err_message err) None.

(** ** middleware/auth.js *)

(** Whether [pat] is a prefix of [s], and [s] without its first
    [length pat] characters. *)
Fixpoint starts_with (pat s : string) : bool :=
  match pat, s with
  | EmptyString, _ => true
  | String a pat', String b s' => Ascii.eqb a b && starts_with pat' s'
  | String _ _, EmptyString => false
  end.

Fixpoint drop_chars (n : nat) (s : string) : string :=
  match n, s with
  | O, _ => s
  | S n', String _ s' => drop_chars n' s'
  | S _, EmptyString => EmptyString
  end.

(** [s.replace(pat, '')]: the first occurrence of [pat] is removed. *)
Fixpoint remove_first (pat s : string) : string :=
  if starts_with pat s then drop_chars (String.length pat) s
  else match s with
       | EmptyString => EmptyString
       | String c s' => String c (remove_first pat s')
       end.

(** Whether [pat] occurs in [s]. *)
Fixpoint occurs (pat s : string) : bool :=
  starts_with pat s
  || match s with
     | EmptyString => false
     | String _ s' => occurs pat s'
     end.

(** [req.header('Authorization')?.replace('Bearer ', '')] *)
Definition bearer_token (authorization : option string) : option string :=
  remove_first "Bearer " <$> authorization.

(** The paths of a User document the middleware reads. *)
Record Account := {
  account_id : ObjectId;
  role : string;
  isActive : bool
}.

(** [jwt.verify(token, process.env.JWT_SECRET)]: the decoded payload's
    [userId], or the error thrown. *)
Inductive JwtOutcome :=
| JwtDecoded (userId : option string)
| JwtThrows (error : Err).

(** What a middleware does: hand over to the next one, or answer. *)
Inductive Middleware (A : Type) :=
| Next (user : A)
| Answer (code : Z) (msg : string).
Arguments Next {A} user.
Arguments Answer {A} code msg.

Definition error_name (e : Err) : string :=
  match e with JsError n _ => n end.

(** The [catch] block of [authenticate]. *)
Definition authentication_error (error : Err) : Middleware Account :=
  if bool_decide (error_name error = "JsonWebTokenError") then
    Answer 401 "Invalid token. Please log in again."
  else if bool_decide (error_name error = "TokenExpiredError") then
    Answer 401 "Token expired. Please log in again."
  else Answer 500 "Authentication failed".

(** [authenticate]: [Next user] stands for [req.user = user; next()].
    [User_findById] stands for [User.findById(id).select('-password')],
    the cast of its argument included; [User.findById(undefined)] finds
    nothing. *)
Definition authenticate (jwt_verify : string → JwtOutcome)
    (User_findById : string → Err + option Account)
    (authorization : option string) : Middleware Account :=
  match bearer_token authorization with
  | None => Answer 401 "Authentication required. Please log in."
  | Some token =>
      if bool_decide (token = "") then
        Answer 401 "Authentication required. Please log in."
      else
        match jwt_verify token with
        | JwtThrows error => authentication_error error
        | JwtDecoded userId =>
            match from_option User_findById (inr None) userId with
            | inl error => authentication_error error
            | inr None => Answer 401 "User not found. Please log in again."
            | inr (Some user) =>
                if negb (isActive user) then
                  Answer 403 "Account is deactivated. Please contact support."
                else Next user
            end
        end
  end.

(** The argument of [authorize]: an array of roles or a single one. *)
Inductive Roles := RolesArray (roles : list string) | RoleString (r : string).

(** [Array.isArray(roles) ? roles : [roles]] *)
Definition allowedRoles (roles : Roles) : list string :=
  match roles with
  | RolesArray l => l
  | RoleString r => [r]
  end.

(** [authorize(roles)], given [req.user]. *)
Definition authorize (roles : Roles) (user : option Account) : Middleware Account :=
  match user with
  | None => Answer 401 "Authentication required"
  | Some user =>
      if (0 <? length (allowedRoles roles))%nat
         && negb (bool_decide (role user ∈ allowedRoles roles)) then
        Answer 403 "You do not have permission to perform this action"
      else Next user
  end.

(** [router.<method>(path, authenticate, authorize(roles), ...)]: the
    guard in front of a handler. *)
Definition guarded (jwt_verify : string → JwtOutcome)
    (User_findById : string → Err + option Account) (roles : Roles)
    (authorization : option string) : Middleware Account :=
  match authenticate jwt_verify User_findById authorization with
  | Next user => authorize roles (Some user)
  | Answer code msg => Answer code msg
  end.

(** ** middleware/auth.js: [rateLimitByUser]

    The limiter keeps, in a [Map] that lives as long as the middleware,
    the times of the requests it let through, per key ([req.user?._id ||
    req.ip]).  The array it stores is the one it goes on to push to, so the
    entry of an admitted request ends with its time. *)
Section rateLimitByUser.

Context {K : Type} `{Countable K}.
Variables (windowMs max : Z).

(** One request: whether it is let through ([next()]) or refused (429),
    and the map afterwards. *)
Definition rateLimit (requests : gmap K (list Z)) (userId : K) (now : Z)
  : bool * gmap K (list Z) :=
  let userRequests := default [] (requests !! userId) in
  let windowStart := now - windowMs in
  let recentRequests := filter (λ time, windowStart < time) userRequests in
  if bool_decide (max ≤ Z.of_nat (length recentRequests)) then
    (false, <[userId := recentRequests]> requests)
  else
    (true, <[userId := recentRequests ++ [now]]> requests).

(** The requests of one key, in the order of arrival: the map at the end
    and the times of the requests let through. *)
Definition serve (userId : K) (requests : gmap K (list Z)) (times : list Z)
  : gmap K (list Z) * list Z :=
  foldl (λ '(requests, admitted) now,
           let '(ok, requests') := rateLimit requests userId now in
           (requests', if ok then admitted ++ [now] else admitted))
        (requests, []) times.

End rateLimitByUser.

(** The clock does not run backwards. *)
Definition nondecreasing (times : list Z) : Prop :=
  ∀ i j a b, (i ≤ j)%nat → times !! i = Some a → times !! j = Some b → a ≤ b.

(** ** middleware/validation.js *)

Definition is_lt (c : ascii) : bool := Ascii.eqb c "<"%char.
Definition is_gt (c : ascii) : bool := Ascii.eqb c ">"%char.

(** [s.replace(/<[^>]*>?/gm, '')]: every ['<'] opens a match that runs to
    the next ['>'], or to the end of the string when there is none;
    [inside] says whether the scan is within such a match. *)
Fixpoint strip_tags (inside : bool) (s : string) : string :=
  match s with
  | EmptyString => EmptyString
  | String c s' =>
      if inside then strip_tags (negb (is_gt c)) s'
      else if is_lt c then strip_tags true s'
      else String c (strip_tags false s')
  end.

(** [s.replace(/[<>]/g, '')] *)
Fixpoint remove_brackets (s : string) : string :=
  match s with
  | EmptyString => EmptyString
  | String c s' =>
      if is_lt c || is_gt c then remove_brackets s'
      else String c (remove_brackets s')
  end.

Fixpoint bracket_free (s : string) : bool :=
  match s with
  | EmptyString => true
  | String c s' => negb (is_lt c || is_gt c) && bracket_free s'
  end.

(** [s] with some characters deleted gives [s']. *)
Fixpoint deletes_to (s s' : string) : Prop :=
  match s with
  | EmptyString => s' = EmptyString
  | String c rest =>
      deletes_to rest s'
      ∨ match s' with
        | String c' rest' => c = c' ∧ deletes_to rest rest'
        | EmptyString => False
        end
  end.

(** The values of a request body, query or params object. *)
#[local] Unset Elimination Schemes.
Inductive JsValue :=
| JsString (s : string)
| JsArray (items : list JsValue)
| JsObject (members : list (string * JsValue))
| JsOther (literal : string).
#[local] Set Elimination Schemes.

Section sanitizeInput.

(** [String.prototype.trim], the runtime's. *)
Variable trim : string → string.

(** The string case of [sanitize]. *)
Definition sanitize_string (s : string) : string :=
  remove_brackets (strip_tags false (trim s)).

(** [sanitize]: strings are cleaned, arrays and objects rebuilt member by
    member under the same keys, anything else is returned as it is.  The
    assignment [sanitized[key] = ...] creates no member for the key
    [__proto__] (it sets the prototype instead). *)
Fixpoint sanitize (obj : JsValue) : JsValue :=
  match obj with
  | JsString s => JsString (sanitize_string s)
  | JsArray items => JsArray (List.map sanitize items)
  | JsObject members =>
      JsObject (List.flat_map
                  (λ kv, if String.eqb kv.1 "__proto__" then []
                         else [(kv.1, sanitize kv.2)])
                  members)
  | JsOther literal => JsOther literal
  end.

End sanitizeInput.

(** Every string in the value is free of angle brackets. *)
Fixpoint clean (v : JsValue) : Prop :=
  match v with
  | JsString s => bracket_free s = true
  | JsArray items => fold_right (λ x acc, clean x ∧ acc) True items
  | JsObject members => fold_right (λ kv acc, clean kv.2 ∧ acc) True members
  | JsOther _ => True
  end.

(** The shape of a value: its arrays, objects and keys, strings and other
    leaves blanked. *)
Fixpoint shape (v : JsValue) : JsValue :=
  match v with
  | JsString _ => JsString ""
  | JsArray items => JsArray (List.map shape items)
  | JsObject members => JsObject (List.map (λ kv, (kv.1, shape kv.2)) members)
  | JsOther literal => JsOther literal
  end.

(** No object in the value has a member named [__proto__]. *)
Fixpoint proto_free (v : JsValue) : Prop :=
  match v with
  | JsArray items => fold_right (λ x acc, proto_free x ∧ acc) True items
  | JsObject members =>
      fold_right (λ kv acc, kv.1 ≠ "__proto__" ∧ proto_free kv.2 ∧ acc) True members
  | _ => True
  end.

(** [validatePhoneNumber]: the digits of the value are counted. *)
Definition is_digit (c : ascii) : bool :=
  let n := nat_of_ascii c in ((48 <=? n) && (n <=? 57))%nat.

(** [value.replace(/\D/g, '')] *)
Fixpoint phoneDigits (value : string) : string :=
  match value with
  | EmptyString => EmptyString
  | String c s' => if is_digit c then String c (phoneDigits s') else phoneDigits s'
  end.

Definition validatePhoneNumber (value : string) : Err + bool :=
  if (String.length (phoneDigits value) <? 7)%nat then
    inl (JsError "Error" "Phone number is too short")
  else if (15 <? String.length (phoneDigits value))%nat then
    inl (JsError "Error" "Phone number is too long")
  else inr true.

(** ** models/User.js: the password timestamps

    Times are milliseconds since the epoch, as [Date.now()] and
    [getTime()] give them; a JWT timestamp is in seconds. *)

(** What the hooks and methods read of a User document being saved. *)
Record PasswordState := {
  isModified_password : bool;
  isNew : bool;
  passwordChangedAt : option Z
}.

(** The [pre('save')] hook that stamps a password change:
    [Date.now() - 1000] unless the password is untouched or the document
    is new. *)
Definition stamp_password_change (now : Z) (doc : PasswordState) : PasswordState :=
  if negb (isModified_password doc) || isNew doc then doc
  else {| isModified_password := isModified_password doc;
          isNew := isNew doc;
          passwordChangedAt := Some (now - 1000) |}.

(** [changedPasswordAfter(JWTTimestamp)]. [parseInt(ms / 1000, 10)] cuts
    the fraction off, towards zero. *)
Definition changedPasswordAfter (doc : PasswordState) (JWTTimestamp : Z) : bool :=
  match passwordChangedAt doc with
  | Some ms =>
      let changedTimestamp := Z.quot ms 1000 in
      bool_decide (JWTTimestamp < changedTimestamp)
  | None => false
  end.

(** ** server.js: the CORS origin check *)

(** [s.split(',')] *)
Fixpoint split_commas_from (current : string) (s : string) : list string :=
  match s with
  | EmptyString => [current]
  | String c s' =>
      if Ascii.eqb c ","%char then current :: split_commas_from "" s'
      else split_commas_from (current +:+ String c "") s'
  end.

Definition split_commas (s : string) : list string := split_commas_from "" s.

(** [process.env.FRONTEND_URL ? process.env.FRONTEND_URL.split(',') :
    [...]] *)
Definition allowedOrigins (env : Env) : list string :=
  if falsy (FRONTEND_URL env) then
    ["http://localhost:3000"; "http://localhost:3000"; "http://localhost:3001"]
  else split_commas (default "" (FRONTEND_URL env)).

(** [corsOptions.origin]: whether the callback is given [true] (rather
    than the error "Not allowed by CORS").  A request without an [Origin]
    header, or with an empty one, is let through. *)
Definition cors_origin (env : Env) (origin : option string) : bool :=
  if falsy origin then true
  else bool_decide (default "" origin ∈ allowedOrigins env) || development env.

Fixpoint comma_free (s : string) : bool :=
  match s with
  | EmptyString => true
  | String c s' => negb (Ascii.eqb c ","%char) && comma_free s'
  end.

(** ** server.js: the body the webhook handler is given

    [app.use('/api/payments/webhook', express.raw({ type:
    'application/json' }))] is registered before [express.json()]: a
    request to the webhook path that announces a body (a [Content-Length]
    or [Transfer-Encoding] header) and whose media type is
    [application/json] gets that body as a [Buffer], an empty one when the
    body is empty, and the JSON parser that follows leaves a body already
    read alone. *)








(** More of the sample deployment. *)


Definition session_T2 : CheckoutData :=
  {| authorization_url := "https://checkout.paystack.com/abc";
     checkout_reference := "T2";
     access_code := "abc" |}.

Definition paid_noon : VerificationData :=
  {| v_status := "success"; v_paid_at := paid_at_noon |}.

Definition boom : ErrorObject :=
  {| err_name := "Error";
     err_message := "boom";
     err_kind := None;
     err_code := None;
     err_errors := None;
     err_keyPattern := None;
     err_stack := "Error: boom at handler" |}.

(** ** Running programs: equations *)

Lemma run_bind {A B} (w : World) (p : Prog A) (f : A → Prog B) (st : Store) :
  run w (bind p f) st =
  match run w p st with
  | (inr a, st1, l1) =>
      let '(o, st2, l2) := run w (f a) st1 in (o, st2, l1 ++ l2)
  | (inl e, st1, l1) => (inl e, st1, l1)
  end.
Proof.
  revert st. induction p as [a|e|c k IH]; intros st; simpl.
  - destruct (run w (f a) st) as [[o st2] l2]. reflexivity.
  - reflexivity.
  - destruct (exec w st c) as [r st1]. rewrite IH.
    destruct (run w (k r) st1) as [[[e|a] st2] l1]; [reflexivity|].
    destruct (run w (f a) st2) as [[o st3] l2]. reflexivity.
Qed.

Lemma run_try_catch {A} (w : World) (p : Prog A) (h : Err → Prog A) (st : Store) :
  run w (try_catch p h) st =
  match run w p st with
  | (inr a, st1, l1) => (inr a, st1, l1)
  | (inl e, st1, l1) =>
      let '(o, st2, l2) := run w (h e) st1 in (o, st2, l1 ++ l2)
  end.
Proof.
  revert st. induction p as [a|e|c k IH]; intros st; simpl.
  - reflexivity.
  - destruct (run w (h e) st) as [[o st2] l2]. reflexivity.
  - destruct (exec w st c) as [r st1]. rewrite IH.
    destruct (run w (k r) st1) as [[[e|a] st2] l1]; [|reflexivity].
    destruct (run w (h e) st2) as [[o st3] l2]. reflexivity.
Qed.

(** ** The store: lookups after updates *)

Lemma find_existsb {A} (f g : A → bool) (l : list A) (x : A) :
  List.find f l = Some x → g x = true → existsb g l = true.
Proof.
  intros Hf Hg. apply find_some in Hf as [Hin _].
  apply existsb_exists. exists x. split; assumption.
Qed.

Lemma find_update_first {A} (f : A → bool) (g : A → A) (l : list A) (x : A) :
  List.find f l = Some x → f (g x) = true →
  List.find f (update_first f g l) = Some (g x).
Proof.
  induction l as [|y l IH]; simpl; [discriminate|].
  destruct (f y) eqn:Hy; intros Hx Hg.
  - injection Hx as ->. simpl. rewrite Hg. reflexivity.
  - simpl. rewrite Hy. apply IH; assumption.
Qed.

Lemma find_update_first_frame {A} (f f' : A → bool) (g : A → A) (l : list A) :
  (∀ y, f y = true → f' y = false) →
  (∀ y, f' (g y) = f' y) →
  List.find f' (update_first f g l) = List.find f' l.
Proof.
  intros Hdisj Hg. induction l as [|y l IH]; simpl; [reflexivity|].
  destruct (f y) eqn:Hy; simpl.
  - rewrite Hg, (Hdisj y Hy). reflexivity.
  - rewrite IH. reflexivity.
Qed.

Lemma findPaymentByReference_exists (ref : string) (st : Store) (p : Payment) :
  findPaymentByReference ref st = Some p →
  existsb (has_payment_id (payment_id p)) (payments st) = true.
Proof.
  intros H. eapply find_existsb; [exact H|].
  unfold has_payment_id. apply bool_decide_eq_true_2. reflexivity.
Qed.

Lemma findApplicationById_id (id : ObjectId) (st : Store) (a : Application) :
  findApplicationById id st = Some a → application_id a = id.
Proof.
  intros H. apply find_some in H as [_ H].
  unfold has_application_id in H. apply bool_decide_eq_true_1 in H. exact H.
Qed.

(** ** The verify endpoint *)

(** C10. Verify is atomic on gateway error: when the stored Payment is not
    yet verified and the gateway's verification call fails, the verify
    endpoint answers 400 with the gateway's message, the store is left as
    it was (status, verified, paidAt, Application and User included), and
    the only calls awaited are the lookup and the gateway call. *)
Theorem C10_verify_gateway_error_changes_nothing
    (w : World) (env : Env) (st : Store) (ref : string) (p : Payment) (e : Err) :
  ref ≠ "" →
  findPaymentByReference ref st = Some p →
  verified p = false →
  gateway_verify w ref = inl e →
  run w (PaymentController.verifyPayment env {| query_reference := Some ref |}) st =
  (inr (json 400 false (Some "Payment verification failed")
             (BodyError (or_default (error_message e) "Payment verification failed"))),
   st,
   [Payment_findOne_reference ref; paystack_transaction_verify ref]).
Proof.
  intros Href Hp Hv Hgw. unfold PaymentController.verifyPayment. simpl.
  rewrite (bool_decide_eq_false_2 _ Href). simpl. rewrite Hp. simpl.
  rewrite Hv. simpl. rewrite Hgw. reflexivity.
Qed.

Lemma save_settle_patch (ref : string) (st : Store) (p : Payment)
    (s : PaymentStatus) (t : Z) (key : string) (v : MetaVal) :
  findPaymentByReference ref st = Some p →
  verified p = false →
  store_save_payment (payment_id p) (settle_patch p s t key v) st =
  (inr tt,
   with_payments (update_first (has_payment_id (payment_id p))
                               (apply_payment_patch (settle_patch p s t key v))
                               (payments st)) st).
Proof.
  intros Hp Hv. unfold store_save_payment.
  assert (empty_patch (settle_patch p s t key v) = false) as ->.
  { unfold empty_patch, settle_patch; simpl. rewrite Hv.
    destruct (changed (status p) s), (decide (paidAt p = Some t)); reflexivity. }
  rewrite (findPaymentByReference_exists _ _ _ Hp). reflexivity.
Qed.

(** C2, amended. The [verified] flag freezes a Payment against the verify
    endpoint: when the stored Payment is verified, a verify call awaits
    nothing but the lookup, whatever the gateway would have answered,
    returns the stored record and leaves the whole store, its status
    included, as it was. *)
Theorem C2_verified_payment_is_frozen_for_verify
    (w : World) (env : Env) (st : Store) (ref : string) (p : Payment) :
  ref ≠ "" →
  findPaymentByReference ref st = Some p →
  verified p = true →
  run w (PaymentController.verifyPayment env {| query_reference := Some ref |}) st =
  (inr (json 200 true (Some "Payment already verified")
             (BodyPayment (populate st p) None)),
   st,
   [Payment_findOne_reference ref]).
Proof.
  intros Href Hp Hv. unfold PaymentController.verifyPayment. simpl.
  rewrite (bool_decide_eq_false_2 _ Href). simpl. rewrite Hp. simpl.
  rewrite Hv. reflexivity.
Qed.

(** C9. Failure cascade frame: when verify reconciles a failed outcome, the
    linked Application ends with [paymentStatus = failed] and every other
    path as before (its [status] in particular), the other Applications
    and the Users are untouched, and the Application is updated once. *)
Theorem C9_failed_outcome_sets_only_paymentStatus
    (w : World) (env : Env) (st : Store) (ref : string) (p : Payment)
    (a : Application) (vd : VerificationData) (t : Z) :
  ref ≠ "" →
  findPaymentByReference ref st = Some p →
  verified p = false →
  gateway_verify w ref = inr vd →
  v_status vd ≠ "success" →
  new_Date (v_paid_at vd) = ValidDate t →
  findApplicationById (payment_application p) st = Some a →
  ∃ (resp : Response) (st' : Store) (log : list Call),
    run w (PaymentController.verifyPayment env {| query_reference := Some ref |}) st
      = (inr resp, st', log)
    ∧ statusCode resp = 400
    ∧ findApplicationById (payment_application p) st' =
        Some {| application_id := application_id a;
                application_email := application_email a;
                application_status := application_status a;
                paymentStatus := PayFailed;
                application_payment := application_payment a;
                application_program := application_program a;
                application_track := application_track a;
                application_profile := application_profile a |}
    ∧ (∀ id, id ≠ payment_application p →
         findApplicationById id st' = findApplicationById id st)
    ∧ users st' = users st
    ∧ count is_application_cascade log = 1%nat.
Proof.
  intros Href Hp Hv Hgw Hfail Ht Ha.
  pose proof (findApplicationById_id _ _ _ Ha) as Hid.
  unfold PaymentController.verifyPayment. simpl.
  rewrite (bool_decide_eq_false_2 _ Href). simpl. rewrite Hp. simpl.
  rewrite Hv. simpl. rewrite Hgw. simpl.
  unfold PaymentController.verifyPayment_settle.
  rewrite Ht, (bool_decide_eq_false_2 _ Hfail). simpl.
  rewrite (save_settle_patch ref st p Failed t _ _ Hp Hv). simpl.
  rewrite Ha. simpl.
  eexists _, _, _. split; [reflexivity|]. simpl.
  split; [reflexivity|]. split; [|split; [|split; reflexivity]].
  - rewrite <- Hid in Ha |- *. unfold findApplicationById. simpl.
    erewrite find_update_first; [reflexivity|exact Ha|].
    unfold has_application_id. simpl. apply bool_decide_eq_true_2. reflexivity.
  - intros id Hne. rewrite <- Hid in Hne. unfold findApplicationById. simpl.
    apply find_update_first_frame.
    + intros y Hy. unfold has_application_id in *.
      apply bool_decide_eq_true_1 in Hy. apply bool_decide_eq_false_2. congruence.
    + intros y. reflexivity.
Qed.

(** ** The initialize endpoint *)

Lemma existsb_update_first {A} (f f' : A → bool) (g : A → A) (l : list A) :
  (∀ y, f' (g y) = f' y) →
  existsb f' (update_first f g l) = existsb f' l.
Proof.
  intros Hg. induction l as [|y l IH]; simpl; [reflexivity|].
  destruct (f y); simpl; [rewrite Hg|rewrite IH]; reflexivity.
Qed.

(** The tail of [initializePayment] when the row is created: linking the
    Application fails its validation, and the error leaves the tail with
    the row stored. *)
Lemma initializePayment_create_throws (w : World) (env : Env)
    (req : InitializeRequest) (a : Application) (st : Store) (u : User) :
  findUserByEmail (req_email req) st = Some u →
  req_track req ≠ "" →
  req_program req ≠ "" →
  existsb (has_reference (placeholder_reference (now w) (random_suffix w)))
          (payments st) = false →
  existsb (has_payment_id (next_object_id w)) (payments st) = false →
  ∃ log : list Call,
    run w (PaymentController.initializePayment_create w env req a) st =
    (inl application_validation_error,
     {| payments := payments st ++ [placeholder_payment w req u];
        applications := applications st;
        users := users st |},
     log)
    ∧ count is_create log = 1%nat
    ∧ count is_checkout_session log = 0%nat
    ∧ count is_delete log = 0%nat.
Proof.
  intros Hu Htrack Hprog Href Hid.
  unfold PaymentController.initializePayment_create. simpl.
  rewrite Hu. simpl. unfold store_create. simpl.
  rewrite (bool_decide_eq_false_2 _ Htrack), (bool_decide_eq_false_2 _ Hprog).
  simpl. rewrite Href, Hid. simpl.
  eexists. split; [reflexivity|]. repeat split.
Qed.

Lemma findPendingPayment_pending (app : ObjectId) (st : Store) (ep : Payment) :
  findPendingPayment app st = Some ep → status ep = Pending.
Proof.
  intros H. apply find_some in H as [_ H].
  apply andb_true_iff in H as [_ H]. apply bool_decide_eq_true_1 in H. exact H.
Qed.

Lemma findPendingPayment_exists (app : ObjectId) (st : Store) (ep : Payment) :
  findPendingPayment app st = Some ep →
  existsb (has_payment_id (payment_id ep)) (payments st) = true.
Proof.
  intros H. eapply find_existsb; [exact H|].
  unfold has_payment_id. apply bool_decide_eq_true_2. reflexivity.
Qed.

Local Opaque PaymentController.initializePayment_create.

(** C6. Initialize is not atomic: when an initialize request creates a new
    Payment row (the Application and the User exist, no pending Payment can
    be reused, the draft passes the schema, the new id and the placeholder
    reference are free), the [application.save()] that links the row fails
    its validation, whatever the gateway would have answered.  The request
    answers 500 "Server error", no checkout session was asked for, no
    compensating delete ran, the new row stays in the payments collection
    (after the rows from before, an overdue pending Payment among them
    marked expired) and the Applications are as before. *)
Theorem C6_creating_initialize_leaves_the_new_payment
    (w : World) (env : Env) (req : InitializeRequest) (st : Store)
    (a : Application) (u : User) :
  findApplicationById (applicationId req) st = Some a →
  match findPendingPayment (applicationId req) st with
  | Some existingPayment => expiresAt existingPayment < now w
  | None => True
  end →
  findUserByEmail (req_email req) st = Some u →
  req_track req ≠ "" →
  req_program req ≠ "" →
  existsb (has_reference (placeholder_reference (now w) (random_suffix w)))
          (payments st) = false →
  existsb (has_payment_id (next_object_id w)) (payments st) = false →
  ∃ (error : string) (log : list Call),
    run w (PaymentController.initializePayment w env req) st
    = (inr (json 500 false (Some "Server error") (BodyError error)),
       {| payments :=
            match findPendingPayment (applicationId req) st with
            | Some existingPayment =>
                update_first (has_payment_id (payment_id existingPayment))
                             (with_status Expired) (payments st)
            | None => payments st
            end ++ [placeholder_payment w req u];
          applications := applications st;
          users := users st |},
       log)
    ∧ count is_create log = 1%nat
    ∧ count is_checkout_session log = 0%nat
    ∧ count is_delete log = 0%nat.
Proof.
  intros Ha Hpend Hu Htrack Hprog Href Hid.
  unfold PaymentController.initializePayment. rewrite run_try_catch. simpl.
  rewrite Ha. simpl.
  destruct (findPendingPayment (applicationId req) st) as [ep|] eqn:Hep; simpl.
  - rewrite (bool_decide_eq_true_2 _ Hpend). simpl.
    pose proof (findPendingPayment_pending _ _ _ Hep) as Hst.
    unfold store_save_payment, status_patch, changed. rewrite Hst. simpl.
    rewrite (findPendingPayment_exists _ _ _ Hep). simpl.
    set (st1 := with_payments _ st).
    destruct (initializePayment_create_throws w env req a st1 u)
      as (log & Hrun & Hcreate & Hsession & Hdelete); try assumption.
    + subst st1. simpl. rewrite existsb_update_first by (intros y; reflexivity).
      exact Href.
    + subst st1. simpl. rewrite existsb_update_first by (intros y; reflexivity).
      exact Hid.
    + rewrite Hrun. simpl. eexists _, _. split; [reflexivity|].
      simpl. rewrite app_nil_r. repeat split; assumption.
  - destruct (initializePayment_create_throws w env req a st u)
      as (log & Hrun & Hcreate & Hsession & Hdelete); try assumption.
    rewrite Hrun. simpl. eexists _, _. split; [reflexivity|].
    simpl. rewrite app_nil_r. repeat split; assumption.
Qed.

Local Transparent PaymentController.initializePayment_create.

(** ** The webhook handler *)

(** The webhook route as registered: a [charge.success] event never reaches
    [processSuccessfulCharge], the receiver is [undefined]. *)
Lemma post_webhook_charge_success `{Platform} (w : World) (env : Env)
    (req : WebhookRequest) (st : Store) :
  PaymentService.verifyWebhookSignature env (req_body req)
                                        (x_paystack_signature req) = true →
  event (req_body req) = "charge.success" →
  run w (paymentRoutes.post_webhook env req) st =
  (inr (json 500 false None
          (BodyError
             "Cannot read properties of undefined (reading 'processSuccessfulCharge')")),
   st, []).
Proof.
  intros Hvalid Hev. unfold paymentRoutes.post_webhook, PaymentController.handleWebhook.
  simpl. rewrite Hvalid, Hev. reflexivity.
Qed.

Lemma save_settle_patch_succeeds (ref : string) (st : Store) (p : Payment)
    (s : PaymentStatus) (t : Z) (key : string) (v : MetaVal) :
  findPaymentByReference ref st = Some p →
  ∃ st' : Store,
    store_save_payment (payment_id p) (settle_patch p s t key v) st = (inr tt, st').
Proof.
  intros Hp. unfold store_save_payment.
  destruct (empty_patch (settle_patch p s t key v)); [eexists; reflexivity|].
  rewrite (findPaymentByReference_exists _ _ _ Hp). simpl.
  eexists; reflexivity.
Qed.

(** [processSuccessfulCharge] never reads [verified]: whenever the
    reference is known, the date casts and both referents exist, it awaits
    the Application update and the User update, settled Payment or not. *)
Lemma processSuccessfulCharge_cascades_regardless `{Platform} (w : World)
    (st : Store) (d : ChargeData) (p : Payment) (a : Application) (u : User)
    (t : Z) :
  match c_metadata d with
  | MetadataString s => JSON_parse_ok s = true
  | MetadataObject _ => True
  end →
  findPaymentByReference (c_reference d) st = Some p →
  new_Date (c_paid_at d) = ValidDate t →
  findApplicationById (payment_application p) st = Some a →
  findUserById (payment_user p) st = Some u →
  ∃ (st' : Store) (log : list Call),
    run w (PaymentController.processSuccessfulCharge d) st = (inr tt, st', log)
    ∧ count is_application_cascade log = 1%nat
    ∧ count is_user_cascade log = 1%nat.
Proof.
  intros Hmeta Hp Ht Ha Hu.
  destruct (save_settle_patch_succeeds _ st p Success t "paystackWebhookData"
              (MetaWebhook d) Hp) as [st1 Hsave].
  unfold PaymentController.processSuccessfulCharge.
  destruct (c_metadata d) as [m|s]; [|rewrite Hmeta]; simpl;
    rewrite Hp; simpl; rewrite Ht; simpl; rewrite Hsave; simpl;
    rewrite Ha, Hu; simpl; eexists _, _; repeat split.
Qed.

(** C5, amended. Once the signature check passes, an unrecognized event
    type is acknowledged with 200 and nothing is touched, whatever the
    receiver; a [charge.success] event handed to [processSuccessfulCharge]
    is acknowledged with 200 when that method returns, and answered with
    500 and the error's message when a step of it throws. *)
Theorem C5_webhook_acknowledges_unless_processing_throws `{Platform}
    (w : World) (env : Env) (req : WebhookRequest) (st : Store) :
  PaymentService.verifyWebhookSignature env (req_body req)
                                        (x_paystack_signature req) = true →
  (event (req_body req) ≠ "charge.success" →
   event (req_body req) ≠ "transfer.success" →
   event (req_body req) ≠ "invoice.payment_failed" →
   ∀ this, run w (PaymentController.handleWebhook this env req) st
           = (inr acknowledged, st, []))
  ∧ (event (req_body req) = "charge.success" →
     run w (PaymentController.handleWebhook ThisController env req) st =
     match run w (PaymentController.processSuccessfulCharge (data (req_body req))) st with
     | (inr _, st', log) => (inr acknowledged, st', log)
     | (inl error, st', log) =>
         (inr (json 500 false None (BodyError (error_message error))), st', log)
     end).
Proof.
  intros Hvalid. split.
  - intros H1 H2 H3 this. unfold PaymentController.handleWebhook. simpl.
    rewrite Hvalid. simpl.
    rewrite (bool_decide_eq_false_2 _ H1), (bool_decide_eq_false_2 _ H2),
      (bool_decide_eq_false_2 _ H3).
    reflexivity.
  - intros Hev. unfold PaymentController.handleWebhook. simpl.
    rewrite Hvalid, Hev. simpl. rewrite run_try_catch.
    unfold mbind, Prog_bind. rewrite run_bind.
    destruct (run w (PaymentController.processSuccessfulCharge _) st)
      as [[[error|[]] st'] log]; simpl.
    + rewrite app_nil_r. reflexivity.
    + rewrite app_nil_r. reflexivity.
Qed.

(** ** The sample deployment, run *)

(** C1. Delivering the same successful outcome twice runs the cascade
    twice as soon as the second delivery is a webhook handled by
    [processSuccessfulCharge], which has no [verified] guard: webhook then
    webhook, and verify then webhook, each update the Application twice and
    the User twice; only verify then verify cascades once.  Through the
    router the webhook handler runs without its receiver, answers 500 and
    cascades not at all. *)
Theorem C1_duplicate_delivery_repeats_cascade :
  (let '(o1, o2, st, log) :=
     run_twice paying_world webhook_PAY1 webhook_PAY1 sample_store in
   status_of o1 = Some 200 ∧ status_of o2 = Some 200
   ∧ count is_application_cascade log = 2%nat
   ∧ count is_user_cascade log = 2%nat)
  ∧ (let '(o1, o2, st, log) :=
       run_twice paying_world get_verify_PAY1 webhook_PAY1 sample_store in
     status_of o1 = Some 200 ∧ status_of o2 = Some 200
     ∧ count is_application_cascade log = 2%nat
     ∧ count is_user_cascade log = 2%nat)
  ∧ (let '(o1, o2, st, log) :=
       run_twice paying_world get_verify_PAY1 get_verify_PAY1 sample_store in
     status_of o1 = Some 200 ∧ status_of o2 = Some 200
     ∧ count is_application_cascade log = 1%nat
     ∧ count is_user_cascade log = 1%nat)
  ∧ (let '(o1, o2, st, log) :=
       run_twice paying_world routed_webhook_PAY1 routed_webhook_PAY1 sample_store in
     status_of o1 = Some 500 ∧ status_of o2 = Some 500
     ∧ count is_application_cascade log = 0%nat
     ∧ st = sample_store).
Proof. vm_compute. repeat split. Qed.

(** C2, as stated, fails: a Payment in the terminal state [expired] (its
    [verified] flag is still false) is moved to [success] by a verify call
    whose gateway answer is a success. *)
Lemma C2_expired_payment_becomes_success :
  stored_status "PAY-1" expired_store = Some Expired
  ∧ terminal Expired = true
  ∧ (let '(o, st, log) :=
       run (paying_world_at next_day) get_verify_PAY1 expired_store in
     status_of o = Some 200 ∧ stored_status "PAY-1" st = Some Success).
Proof. vm_compute. repeat split. Qed.

(** C2, amended, at the sample deployment: [P1] settled as success, and a
    gateway that would now report it failed. *)
Lemma C2_verified_payment_is_frozen_witness :
  run failing_world
      (PaymentController.verifyPayment (production None) verify_PAY1) settled_store =
  (inr (json 200 true (Some "Payment already verified")
             (BodyPayment (populate settled_store P1_settled) None)),
   settled_store,
   [Payment_findOne_reference "PAY-1"]).
Proof.
  apply (C2_verified_payment_is_frozen_for_verify
           failing_world (production None) settled_store "PAY-1" P1_settled).
  - discriminate.
  - reflexivity.
  - reflexivity.
Defined.

(** C3. There is no conditional write on [verified]: each request reads
    the flag, awaits, and writes later.  When a verify call has read the
    Payment and a webhook for the same reference is handled before the
    gateway answers it, both commit the transition to [success] and both
    run the cascade; two interleaved verify calls do the same.  Through the
    router the webhook handler has no receiver and answers 500, which
    leaves the verify call alone to settle the Payment. *)
Theorem C3_interleaved_deliveries_transition_twice :
  (let '(pool, st, log) :=
     interleave paying_world [0; 1; 1; 1; 1; 0; 0; 0; 0]%nat
                [get_verify_PAY1; webhook_PAY1] sample_store in
   responded <$> pool = [Some 200; Some 200]
   ∧ count is_terminal_transition log = 2%nat
   ∧ count is_application_cascade log = 2%nat
   ∧ count is_user_cascade log = 2%nat)
  ∧ (let '(pool, st, log) :=
       interleave paying_world [0; 1; 0; 1; 0; 1; 0; 1; 0; 1]%nat
                  [get_verify_PAY1; get_verify_PAY1] sample_store in
     responded <$> pool = [Some 200; Some 200]
     ∧ count is_terminal_transition log = 2%nat
     ∧ count is_application_cascade log = 2%nat
     ∧ count is_user_cascade log = 2%nat)
  ∧ (let '(pool, st, log) :=
       interleave paying_world [0; 1; 1; 1; 1; 0; 0; 0; 0]%nat
                  [get_verify_PAY1; routed_webhook_PAY1] sample_store in
     responded <$> pool = [Some 200; Some 500]
     ∧ count is_terminal_transition log = 1%nat
     ∧ count is_application_cascade log = 1%nat
     ∧ count is_user_cascade log = 1%nat).
Proof. vm_compute. repeat split. Qed.

(** C4. With no webhook secret configured (missing, or empty) the
    signature check returns true for every payload and every signature
    header, also when [NODE_ENV] is [production]; an unsigned
    [charge.success] then settles the Payment and runs the cascade. *)
Theorem C4_missing_secret_accepts_webhooks_in_production `{Platform}
    (payload : WebhookPayload) (signature : option string) :
  PaymentService.verifyWebhookSignature (production None) payload signature = true
  ∧ PaymentService.verifyWebhookSignature (production (Some "")) payload signature = true
  ∧ (let '(o, st, log) :=
       run paying_world
           (PaymentController.handleWebhook ThisController (production None)
              (unsigned_webhook charge_success_PAY1)) sample_store in
     status_of o = Some 200
     ∧ stored_status "PAY-1" st = Some Success
     ∧ count is_write log = 3%nat).
Proof. vm_compute. repeat split. Qed.

(** C5, as stated, fails: a correctly signed [charge.success] whose User
    update throws (the Payment's user no longer exists) is answered with
    500, after the Payment was settled and the Application updated. *)
Lemma C5_cascade_failure_answers_500 :
  @PaymentService.verifyWebhookSignature sample_platform (production (Some "whsec"))
     charge_success_PAY1
     (x_paystack_signature (signed_webhook charge_success_PAY1)) = true
  ∧ (let '(o, st, log) := run paying_world webhook_PAY1 orphan_store in
     status_of o = Some 500
     ∧ stored_status "PAY-1" st = Some Success
     ∧ count is_application_cascade log = 1%nat
     ∧ count is_user_cascade log = 0%nat).
Proof. vm_compute. repeat split. Qed.

(** C5, amended, at the sample deployment: a correctly signed
    [charge.success] for ["PAY-1"]. *)
Lemma C5_webhook_acknowledges_witness :
  run paying_world webhook_PAY1 sample_store =
  match run paying_world
            (@PaymentController.processSuccessfulCharge sample_platform
               (data charge_success_PAY1)) sample_store with
  | (inr _, st', log) => (inr acknowledged, st', log)
  | (inl error, st', log) =>
      (inr (json 500 false None (BodyError (error_message error))), st', log)
  end.
Proof.
  apply (@C5_webhook_acknowledges_unless_processing_throws sample_platform
           paying_world (production (Some "whsec"))
           (signed_webhook charge_success_PAY1) sample_store).
  - reflexivity.
  - reflexivity.
Defined.

(** C6 at the sample deployment, a day later, with a gateway that would
    time out: [P1] is overdue and marked expired, the request creates row
    11, and row 11 stays. *)
Lemma C6_creating_initialize_witness :
  ∃ (error : string) (log : list Call),
    run (failing_world_at next_day)
        (PaymentController.initializePayment (failing_world_at next_day)
           (production None) initialize_A5) sample_store
    = (inr (json 500 false (Some "Server error") (BodyError error)),
       {| payments :=
            [with_status Expired P1;
             placeholder_payment (failing_world_at next_day) initialize_A5 U1];
          applications := [A5];
          users := [U1] |},
       log)
    ∧ count is_create log = 1%nat
    ∧ count is_checkout_session log = 0%nat
    ∧ count is_delete log = 0%nat.
Proof.
  apply (C6_creating_initialize_leaves_the_new_payment
           (failing_world_at next_day) (production None) initialize_A5
           sample_store A5 U1).
  - reflexivity.
  - reflexivity.
  - reflexivity.
  - discriminate.
  - discriminate.
  - reflexivity.
  - reflexivity.
Defined.

(** C7. Re-initializing an Application that has a pending, not yet overdue
    Payment creates no row, but the checkout session it returns carries the
    reference the gateway issued for it (["T2"]), which is stored nowhere:
    the Payment keeps ["PAY-1"], and verifying the returned reference
    answers 404. *)
Theorem C7_reinitialize_returns_unrecorded_reference :
  let '(o1, o2, st, log) :=
    run_twice paying_world
      (paymentRoutes.post_initialize paying_world (production None) initialize_A5)
      (paymentRoutes.get_verify (production None) {| query_reference := Some "T2" |})
      sample_store in
  o1 = inr (json 200 true (Some "Payment initialized successfully")
              (BodyCheckout
                 {| authorization_url := "https://checkout.paystack.com/abc";
                    checkout_reference := "T2";
                    access_code := "abc" |}))
  ∧ count is_create log = 0%nat
  ∧ reference <$> payments st = ["PAY-1"]
  ∧ o2 = inr (json 404 false (Some "Payment not found") BodyEmpty).
Proof. vm_compute. repeat split. Qed.

(** C8. A verification that settles the Payment as failed still assigns
    [paidAt]: the gateway's [paid_at] of a failed transaction is [null],
    and [new Date(null)] is stored, the epoch. *)
Theorem C8_failed_verification_sets_paidAt :
  stored_paidAt "PAY-1" sample_store = Some None
  ∧ (let '(o, st, log) :=
       run failing_world
           (paymentRoutes.get_verify (production None) verify_PAY1) sample_store in
     status_of o = Some 400
     ∧ stored_status "PAY-1" st = Some Failed
     ∧ stored_paidAt "PAY-1" st = Some (Some 0)).
Proof. vm_compute. repeat split. Qed.

(** C9 at the sample deployment: the gateway reports ["PAY-1"] failed. *)
Lemma C9_failed_outcome_witness :
  ∃ (resp : Response) (st' : Store) (log : list Call),
    run failing_world
        (PaymentController.verifyPayment (production None) verify_PAY1) sample_store
      = (inr resp, st', log)
    ∧ statusCode resp = 400
    ∧ findApplicationById 5%N st' =
        Some {| application_id := 5%N;
                application_email := "ada@example.com";
                application_status := AppPending;
                paymentStatus := PayFailed;
                application_payment := Some 10%N;
                application_program := "launchpad";
                application_track := "devops";
                application_profile := [("firstName", "Ada"); ("lastName", "Obi")] |}
    ∧ (∀ id, id ≠ 5%N →
         findApplicationById id st' = findApplicationById id sample_store)
    ∧ users st' = users sample_store
    ∧ count is_application_cascade log = 1%nat.
Proof.
  apply (C9_failed_outcome_sets_only_paymentStatus
           failing_world (production None) sample_store "PAY-1" P1 A5
           {| v_status := "failed"; v_paid_at := JsNull |} 0).
  - discriminate.
  - reflexivity.
  - reflexivity.
  - reflexivity.
  - discriminate.
  - reflexivity.
  - reflexivity.
Defined.

(** C10 at the sample deployment: the gateway times out. *)
Lemma C10_verify_gateway_error_witness :
  run unreachable_world
      (PaymentController.verifyPayment (production None) verify_PAY1) sample_store =
  (inr (json 400 false (Some "Payment verification failed")
             (BodyError "connect ETIMEDOUT")),
   sample_store,
   [Payment_findOne_reference "PAY-1"; paystack_transaction_verify "PAY-1"]).
Proof.
  apply (C10_verify_gateway_error_changes_nothing
           unreachable_world (production None) sample_store "PAY-1" P1
           (JsError "Error" "connect ETIMEDOUT")).
  - discriminate.
  - reflexivity.
  - reflexivity.
  - reflexivity.
Defined.

(** ** Further properties of the payment endpoints *)

Lemma update_first_payment_frame (id : ObjectId) (patch : PaymentPatch)
    (l : list Payment) :
  set_reference patch = None →
  payment_frame <$> update_first (has_payment_id id) (apply_payment_patch patch) l
  = payment_frame <$> l.
Proof.
  intros Href. induction l as [|p l IH]; [reflexivity|].
  cbn [update_first]. destruct (has_payment_id id p); rewrite !fmap_cons.
  - f_equal. unfold payment_frame. simpl. rewrite Href. reflexivity.
  - f_equal. exact IH.
Qed.

Lemma update_first_application_frame (id : ObjectId) (upd : ApplicationUpdate)
    (l : list Application) :
  application_frame
    <$> update_first (has_application_id id) (apply_application_update upd) l
  = application_frame <$> l.
Proof.
  induction l as [|a l IH]; [reflexivity|].
  cbn [update_first]. destruct (has_application_id id a); rewrite !fmap_cons.
  - reflexivity.
  - f_equal. exact IH.
Qed.

Lemma exec_keeps_frame (w : World) (st : Store) (c : Call) :
  keeps_frame c → store_frame (exec w st c).2 = store_frame st.
Proof.
  destruct c; simpl; intros Hc; try contradiction; try reflexivity.
  - rename Hc into Href. unfold store_save_payment.
    destruct (empty_patch patch); [reflexivity|].
    destruct (negb _); [reflexivity|]. rewrite Href. simpl.
    unfold store_frame. simpl. rewrite (update_first_payment_frame _ _ _ Href).
    reflexivity.
  - unfold store_frame. simpl. rewrite update_first_application_frame.
    reflexivity.
Qed.

Lemma run_keeps_frame {A} (w : World) (p : Prog A) (st : Store) :
  calls_only keeps_frame p → store_frame (run w p st).1.2 = store_frame st.
Proof.
  intros Hp. revert st. induction Hp as [a|e|c k Hc Hk IH]; intros st; simpl;
    try reflexivity.
  pose proof (exec_keeps_frame w st c Hc) as Hexec.
  destruct (exec w st c) as [r st1]. specialize (IH r st1).
  destruct (run w (k r) st1) as [[o st2] l]. simpl in *. congruence.
Qed.

Lemma calls_only_try_catch {A} (P : Call → Prop) (p : Prog A) (h : Err → Prog A) :
  calls_only P p → (∀ e, calls_only P (h e)) → calls_only P (try_catch p h).
Proof.
  intros Hp Hh. induction Hp; simpl; auto using calls_only.
Qed.

Lemma calls_only_bind {A B} (P : Call → Prop) (p : Prog A) (f : A → Prog B) :
  calls_only P p → (∀ a, calls_only P (f a)) → calls_only P (bind p f).
Proof.
  intros Hp Hf. induction Hp; simpl; auto using calls_only.
Qed.

Ltac calls_only_step :=
  first
    [ apply calls_only_Ret
    | apply calls_only_Throw
    | apply calls_only_try_catch
    | apply calls_only_bind
    | apply calls_only_Await; [simpl; try exact I; try reflexivity|]
    | progress intros
    | match goal with
      | |- calls_only _ (match ?x with _ => _ end) => destruct x
      | |- calls_only _ (if ?x then _ else _) => destruct x
      end ].

Lemma verifyPayment_calls (env : Env) (req : VerifyRequest) :
  calls_only keeps_frame (PaymentController.verifyPayment env req).
Proof.
  unfold PaymentController.verifyPayment, PaymentController.verifyPayment_settle,
    PaymentService.verifyPayment, perform, settle, mbind, mret, Prog_bind, Prog_ret,
    server_error.
  repeat calls_only_step.
Qed.

Lemma handleWebhook_calls `{Platform} (this : ThisBinding) (env : Env)
    (req : WebhookRequest) :
  calls_only keeps_frame (PaymentController.handleWebhook this env req).
Proof.
  unfold PaymentController.handleWebhook, PaymentController.this_processSuccessfulCharge,
    PaymentController.this_missing_method, PaymentController.processSuccessfulCharge,
    perform, settle, mbind, mret, Prog_bind, Prog_ret.
  repeat calls_only_step.
Qed.

(** X2. What a reconciliation leaves alone: after any verify call and
    after any webhook, with any receiver, the three collections hold the
    same documents in the same order; of a Payment only [status],
    [paidAt], [verified] and the [metadata] bag can differ, of an
    Application only [status] and [paymentStatus], and the Users are as
    before. *)
Theorem reconciliation_frame `{Platform} (w : World) (env : Env) (st : Store) :
  (∀ req,
     store_frame (run w (PaymentController.verifyPayment env req) st).1.2
     = store_frame st)
  ∧ (∀ this req,
       store_frame (run w (PaymentController.handleWebhook this env req) st).1.2
       = store_frame st).
Proof.
  split; intros.
  - apply run_keeps_frame, verifyPayment_calls.
  - apply run_keeps_frame, handleWebhook_calls.
Qed.

(** X3. A verify call without a reference, or with the empty one, is
    refused with 400 before anything is awaited; a reference no Payment
    carries is answered 404 after the lookup alone.  The store is untouched
    in both cases. *)
Theorem verifyPayment_missing_or_unknown_reference (w : World) (env : Env)
    (st : Store) :
  run w (PaymentController.verifyPayment env {| query_reference := None |}) st
  = (inr (json 400 false (Some "Payment reference is required") BodyEmpty), st, [])
  ∧ run w (PaymentController.verifyPayment env {| query_reference := Some "" |}) st
    = (inr (json 400 false (Some "Payment reference is required") BodyEmpty), st, [])
  ∧ (∀ ref, ref ≠ "" → findPaymentByReference ref st = None →
       run w (PaymentController.verifyPayment env {| query_reference := Some ref |}) st
       = (inr (json 404 false (Some "Payment not found") BodyEmpty), st,
          [Payment_findOne_reference ref])).
Proof.
  split; [reflexivity|]. split; [reflexivity|].
  intros ref Href Hnone. unfold PaymentController.verifyPayment. simpl.
  rewrite (bool_decide_eq_false_2 _ Href). simpl. rewrite Hnone. reflexivity.
Qed.

Lemma or_default_nonempty (m d : string) : d ≠ "" → or_default m d ≠ "".
Proof.
  intros Hd. unfold or_default. case_bool_decide; assumption.
Qed.

(** X4. The payment service never throws and never writes: each of its
    two gateway calls resolves to a result object after that one call,
    the store is as before, and a failure always carries a non-empty
    message (the gateway's, or the service's default when the gateway's is
    empty). *)
Theorem PaymentService_never_throws (w : World) (env : Env) (st : Store) :
  (∀ paymentData, ∃ result args,
     run w (PaymentService.initializePayment env paymentData) st
     = (inr result, st, [paystack_transaction_initialize args])
     ∧ ∀ error, result = ServiceFail error → error ≠ "")
  ∧ (∀ ref, ∃ result,
       run w (PaymentService.verifyPayment ref) st
       = (inr result, st, [paystack_transaction_verify ref])
       ∧ ∀ error, result = ServiceFail error → error ≠ "").
Proof.
  split.
  - intros pd. unfold PaymentService.initializePayment. simpl.
    destruct (gateway_initialize w _) as [e|d]; simpl; eexists _, _;
      (split; [reflexivity|]); intros error Herr; [|discriminate].
    injection Herr as <-. apply or_default_nonempty. discriminate.
  - intros ref. unfold PaymentService.verifyPayment. simpl.
    destruct (gateway_verify w ref) as [e|d]; simpl; eexists;
      (split; [reflexivity|]); intros error Herr; [|discriminate].
    injection Herr as <-. apply or_default_nonempty. discriminate.
Qed.

(** X5. With a webhook secret configured, the signature check passes
    exactly for the header that equals the HMAC of the stringified body;
    every other webhook, one without the header included, is answered 401
    before anything is awaited and leaves the store untouched, whatever
    its event and receiver. *)
Theorem handleWebhook_rejects_bad_signature `{Platform} (w : World) (st : Store)
    (this : ThisBinding) (env : Env) (req : WebhookRequest) (secret : string) :
  PAYSTACK_WEBHOOK_SECRET env = Some secret →
  secret ≠ "" →
  (PaymentService.verifyWebhookSignature env (req_body req) (x_paystack_signature req)
   = true
   ↔ x_paystack_signature req
     = Some (hmac_sha512_hex secret (JSON_stringify (req_body req))))
  ∧ (x_paystack_signature req
     ≠ Some (hmac_sha512_hex secret (JSON_stringify (req_body req))) →
     run w (PaymentController.handleWebhook this env req) st
     = (inr (json 401 false None (BodyError "Invalid signature")), st, [])).
Proof.
  intros Hsecret Hne.
  assert (PaymentService.verifyWebhookSignature env (req_body req)
            (x_paystack_signature req)
          = bool_decide (Some (hmac_sha512_hex secret (JSON_stringify (req_body req)))
                         = x_paystack_signature req)) as Hcheck.
  { unfold PaymentService.verifyWebhookSignature. rewrite Hsecret. simpl.
    rewrite (bool_decide_eq_false_2 _ Hne). reflexivity. }
  split.
  - rewrite Hcheck, bool_decide_eq_true. split; congruence.
  - intros Hsig. unfold PaymentController.handleWebhook. simpl.
    rewrite Hcheck, bool_decide_eq_false_2 by congruence. reflexivity.
Qed.


(** X7. Re-initializing an Application whose pending Payment is not yet
    overdue writes nothing: the handler awaits the two lookups and one
    gateway call, whose metadata names the existing Payment, and answers
    200 with the gateway's session or 500 with its error; the store is as
    before either way. *)
Theorem initializePayment_reuse_writes_nothing (w : World) (env : Env)
    (req : InitializeRequest) (st : Store) (a : Application)
    (existingPayment : Payment) :
  findApplicationById (applicationId req) st = Some a →
  findPendingPayment (applicationId req) st = Some existingPayment →
  now w ≤ expiresAt existingPayment →
  run w (PaymentController.initializePayment w env req) st
  = (inr match gateway_initialize w (reuse_args env req existingPayment) with
         | inr d => json 200 true (Some "Payment initialized successfully")
                         (BodyCheckout d)
         | inl e => json 500 false (Some "Payment initialization failed")
                         (BodyError (or_default (error_message e)
                                                "Payment initialization failed"))
         end,
     st,
     [Application_findById (applicationId req);
      Payment_findOne_pending (applicationId req);
      paystack_transaction_initialize (reuse_args env req existingPayment)]).
Proof.
  intros Ha Hep Hfresh. unfold PaymentController.initializePayment. simpl.
  rewrite Ha. simpl. rewrite Hep. simpl.
  rewrite bool_decide_eq_false_2 by lia. simpl.
  fold (reuse_args env req existingPayment).
  destruct (gateway_initialize w (reuse_args env req existingPayment)); reflexivity.
Qed.

Lemma apply_settle_patch (p : Payment) (s : PaymentStatus) (t : Z)
    (key : string) (v : MetaVal) :
  apply_payment_patch (settle_patch p s t key v) p
  = {| payment_id := payment_id p;
       payment_user := payment_user p;
       payment_application := payment_application p;
       track := track p;
       program := program p;
       amount := amount p;
       currency := currency p;
       reference := reference p;
       status := s;
       paymentMethod := paymentMethod p;
       metadata := if decide (metadata p = ∅) then {[ key := v ]} else metadata p;
       paidAt := Some t;
       verified := true;
       expiresAt := expiresAt p |}.
Proof.
  unfold apply_payment_patch, settle_patch, changed. simpl.
  destruct (decide (status p = s)) as [<-|], (decide (paidAt p = Some t)) as [->|],
    (decide (verified p = true)) as [->|], (decide (metadata p = ∅));
    reflexivity.
Qed.

Lemma findUserById_id (id : ObjectId) (st : Store) (u : User) :
  findUserById id st = Some u → user_id u = id.
Proof.
  intros H. apply find_some in H as [_ H].
  unfold has_user_id in H. apply bool_decide_eq_true_1 in H. exact H.
Qed.

(** X8. Success cascade: when verify reconciles a successful outcome of an
    unverified Payment whose Application and User exist, it awaits, in this
    order, the lookup, the gateway, the save, the Application update and
    the User update.  The stored Payment ends [success], verified, with
    [paidAt] the gateway's date; its [metadata] bag is the stored one, or,
    for a Payment stored without a bag, the bag that holds the gateway's
    answer under [paystackData]; every other path is as before.  The
    Application ends [enrolled] and [paid] with its other paths as before,
    no User document changes, and the response shows the Application as
    populated before the update. *)
Theorem verifyPayment_success_cascade (w : World) (env : Env) (st : Store)
    (ref : string) (p : Payment) (a : Application) (u : User)
    (vd : VerificationData) (t : Z) :
  ref ≠ "" →
  findPaymentByReference ref st = Some p →
  findPaymentById (payment_id p) st = Some p →
  verified p = false →
  gateway_verify w ref = inr vd →
  v_status vd = "success" →
  new_Date (v_paid_at vd) = ValidDate t →
  findApplicationById (payment_application p) st = Some a →
  findUserById (payment_user p) st = Some u →
  ∃ st' : Store,
    run w (PaymentController.verifyPayment env {| query_reference := Some ref |}) st
    = (inr (json 200 true (Some "Payment verified successfully")
              (BodyPayment
                 {| doc := settled_doc p Success t "paystackData" (MetaVerification vd);
                    populated_user := Some u;
                    populated_application := Some a |}
                 (Some (template (FRONTEND_URL env) +:+ "/dashboard")))),
       st',
       [Payment_findOne_reference ref;
        paystack_transaction_verify ref;
        payment_save (payment_id p)
                     (settle_patch p Success t "paystackData" (MetaVerification vd));
        Application_findByIdAndUpdate (payment_application p) enrolled_paid;
        User_findByIdAndUpdate_addToSet (payment_user p)
                                        (Some (payment_application p))])
    ∧ findPaymentById (payment_id p) st'
      = Some {| payment_id := payment_id p;
                payment_user := payment_user p;
                payment_application := payment_application p;
                track := track p;
                program := program p;
                amount := amount p;
                currency := currency p;
                reference := reference p;
                status := Success;
                paymentMethod := paymentMethod p;
                metadata :=
                  if decide (metadata p = ∅)
                  then {[ "paystackData" := MetaVerification vd ]}
                  else metadata p;
                paidAt := Some t;
                verified := true;
                expiresAt := expiresAt p |}
    ∧ findApplicationById (payment_application p) st'
      = Some {| application_id := application_id a;
                application_email := application_email a;
                application_status := AppEnrolled;
                paymentStatus := PayPaid;
                application_payment := application_payment a;
                application_program := application_program a;
                application_track := application_track a;
                application_profile := application_profile a |}
    ∧ users st' = users st.
Proof.
  intros Href Hp Hpid Hv Hgw Hok Ht Ha Hu.
  pose proof (findApplicationById_id _ _ _ Ha) as Haid.
  pose proof (findUserById_id _ _ _ Hu) as Huid.
  unfold PaymentController.verifyPayment. simpl.
  rewrite (bool_decide_eq_false_2 _ Href). simpl. rewrite Hp. simpl.
  rewrite Hv. simpl. rewrite Hgw. simpl.
  unfold PaymentController.verifyPayment_settle.
  rewrite Ht, (bool_decide_eq_true_2 _ Hok). simpl.
  rewrite (save_settle_patch ref st p Success t _ _ Hp Hv). simpl.
  rewrite Ha, Hu. simpl. rewrite Haid, Huid.
  eexists. split; [reflexivity|]. simpl. split; [|split; [|reflexivity]].
  - unfold findPaymentById in *. simpl.
    erewrite find_update_first; [rewrite apply_settle_patch; reflexivity|exact Hpid|].
    unfold has_payment_id. apply bool_decide_eq_true_2. reflexivity.
  - rewrite <- Haid in Ha |- *. unfold findApplicationById in *. simpl.
    erewrite find_update_first; [reflexivity|exact Ha|].
    unfold has_application_id. apply bool_decide_eq_true_2. reflexivity.
Qed.

(** X10. Initialize refuses an unknown Application with 404 after the one
    lookup, store untouched; and when no User has the request's email (and
    no pending Payment can be reused) it answers 404 without creating a
    row, the Applications and Users are untouched, and the only write is
    the [expired] mark on an overdue pending Payment. *)
Theorem initializePayment_unknown_application_or_user (w : World) (env : Env)
    (req : InitializeRequest) (st : Store) :
  (findApplicationById (applicationId req) st = None →
   run w (PaymentController.initializePayment w env req) st
   = (inr (json 404 false (Some "Application not found") BodyEmpty), st,
      [Application_findById (applicationId req)]))
  ∧ (∀ a,
       findApplicationById (applicationId req) st = Some a →
       match findPendingPayment (applicationId req) st with
       | Some existingPayment => expiresAt existingPayment < now w
       | None => True
       end →
       findUserByEmail (req_email req) st = None →
       ∃ st' log,
         run w (PaymentController.initializePayment w env req) st
         = (inr (json 404 false (Some "User not found") BodyEmpty), st', log)
         ∧ payments st'
           = match findPendingPayment (applicationId req) st with
             | Some existingPayment =>
                 update_first (has_payment_id (payment_id existingPayment))
                              (with_status Expired) (payments st)
             | None => payments st
             end
         ∧ applications st' = applications st
         ∧ users st' = users st
         ∧ count is_create log = 0%nat).
Proof.
  split.
  - intros Hnone. unfold PaymentController.initializePayment. simpl.
    rewrite Hnone. reflexivity.
  - intros a Ha Hpend Hu. unfold PaymentController.initializePayment. simpl.
    rewrite Ha. simpl.
    destruct (findPendingPayment (applicationId req) st) as [ep|] eqn:Hep; simpl.
    + rewrite (bool_decide_eq_true_2 _ Hpend). simpl.
      pose proof (findPendingPayment_pending _ _ _ Hep) as Hst.
      unfold store_save_payment, status_patch, changed. rewrite Hst. simpl.
      rewrite (findPendingPayment_exists _ _ _ Hep). simpl.
      unfold findUserByEmail in *. simpl. rewrite Hu. simpl.
      eexists _, _. repeat split.
    + rewrite Hu. simpl. eexists _, _. repeat split.
Qed.

(** The tail of [initializePayment] that creates a row never answers 200:
    it answers 404 when no User has the email, and throws otherwise. *)
Lemma initializePayment_create_outcome (w : World) (env : Env)
    (req : InitializeRequest) (a : Application) (st : Store) :
  match (run w (PaymentController.initializePayment_create w env req a) st).1.1 with
  | inr resp => statusCode resp = 404
  | inl _ => True
  end.
Proof.
  unfold PaymentController.initializePayment_create. simpl.
  destruct (findUserByEmail (req_email req) st) as [u|]; simpl; [|reflexivity].
  unfold store_create. simpl.
  destruct (bool_decide (req_track req = "") || bool_decide (req_program req = ""));
    simpl; [exact I|].
  destruct (existsb _ (payments st) || existsb _ (payments st)); simpl; exact I.
Qed.

Local Opaque PaymentController.initializePayment_create.

(** X25. Initialize answers 200 only by re-using: whenever the handler
    answers 200, the Application exists and has a pending Payment that is
    not overdue, the gateway opened a session for the arguments that name
    this Payment, the response carries that session, the handler awaited
    the two lookups and the gateway call only, and the store is as
    before.  A request that has to create a row never answers 200. *)
Theorem initializePayment_200_is_reuse (w : World) (env : Env)
    (req : InitializeRequest) (st st' : Store) (resp : Response) (log : list Call) :
  run w (PaymentController.initializePayment w env req) st = (inr resp, st', log) →
  statusCode resp = 200 →
  ∃ (a : Application) (existingPayment : Payment) (d : CheckoutData),
    findApplicationById (applicationId req) st = Some a
    ∧ findPendingPayment (applicationId req) st = Some existingPayment
    ∧ now w ≤ expiresAt existingPayment
    ∧ gateway_initialize w (reuse_args env req existingPayment) = inr d
    ∧ resp = json 200 true (Some "Payment initialized successfully") (BodyCheckout d)
    ∧ st' = st
    ∧ log = [Application_findById (applicationId req);
             Payment_findOne_pending (applicationId req);
             paystack_transaction_initialize (reuse_args env req existingPayment)].
Proof.
  intros Hrun H200.
  unfold PaymentController.initializePayment in Hrun.
  rewrite run_try_catch in Hrun. simpl in Hrun.
  destruct (findApplicationById (applicationId req) st) as [a|] eqn:Ha;
    simpl in Hrun; [|injection Hrun as <- _ _; discriminate H200].
  destruct (findPendingPayment (applicationId req) st) as [ep|] eqn:Hep;
    simpl in Hrun.
  - case_bool_decide as Hdue; simpl in Hrun.
    + destruct (store_save_payment (payment_id ep) (status_patch ep Expired) st)
        as [[e|[]] st1]; simpl in Hrun;
        [injection Hrun as <- _ _; discriminate H200|].
      pose proof (initializePayment_create_outcome w env req a st1) as Hout.
      destruct (run w (PaymentController.initializePayment_create w env req a) st1)
        as [[[e|r] st2] l]; simpl in Hrun, Hout; injection Hrun as <- _ _.
      * discriminate H200.
      * rewrite Hout in H200. discriminate H200.
    + exists a, ep. unfold reuse_args.
      destruct (gateway_initialize w _) as [e|d] eqn:Hgw; simpl in Hrun;
        injection Hrun as <- <- <-; [discriminate H200|].
      exists d. repeat split; try reflexivity. lia.
  - pose proof (initializePayment_create_outcome w env req a st) as Hout.
    destruct (run w (PaymentController.initializePayment_create w env req a) st)
      as [[[e|r] st2] l]; simpl in Hrun, Hout; injection Hrun as <- _ _.
    + discriminate H200.
    + rewrite Hout in H200. discriminate H200.
Qed.

Local Transparent PaymentController.initializePayment_create.

(** ** The route table *)

Lemma lower_slash (c : ascii) : is_slash (lower c) = is_slash c.
Proof.
  destruct c as [[] [] [] [] [] [] [] []]; vm_compute; reflexivity.
Qed.

Lemma to_lower_no_slash (s : string) : no_slash (to_lower s) = no_slash s.
Proof.
  induction s as [|c s IH]; simpl; [reflexivity|]. rewrite lower_slash, IH.
  reflexivity.
Qed.

Lemma to_lower_strip_trailing_slash (s : string) :
  to_lower (strip_trailing_slash s) = strip_trailing_slash (to_lower s).
Proof.
  induction s as [|c s IH]; [reflexivity|].
  destruct s as [|c' s']; simpl.
  - rewrite lower_slash. destruct (is_slash c); reflexivity.
  - simpl in IH. rewrite IH. reflexivity.
Qed.

Lemma to_lower_empty (s : string) : to_lower s = "" → s = "".
Proof. destruct s; [reflexivity|discriminate]. Qed.

(** A path the literal pattern matches is also matched by the parameter
    pattern, which captures the literal up to case. *)
Lemma match_literal_parameter (name path : string) :
  to_lower name ≠ "" →
  no_slash name = true →
  match_literal name path = true →
  ∃ segment, match_parameter path = Some segment
             ∧ to_lower segment = to_lower name.
Proof.
  intros Hne Hns Hm. unfold match_literal in Hm.
  assert (∃ rest, path = String "/" rest
                  ∧ to_lower (strip_trailing_slash rest) = to_lower name)
    as (rest & -> & Hrest).
  { rewrite <- to_lower_no_slash in Hns.
    assert (strip_trailing_slash (to_lower name) = to_lower name) as Hstrip1.
    { clear Hne Hm. induction (to_lower name) as [|c s IH]; [reflexivity|].
      simpl in Hns. apply andb_true_iff in Hns as [Hc Hs].
      destruct s as [|c' s']; simpl.
      - destruct (is_slash c); [discriminate|reflexivity].
      - simpl in IH. rewrite (IH Hs). reflexivity. }
    assert (strip_trailing_slash (to_lower name +:+ "/") = to_lower name) as Hstrip2.
    { clear Hns Hm Hstrip1. induction (to_lower name) as [|c s IH]; [contradiction|].
      destruct s as [|c' s']; simpl; [reflexivity|].
      simpl in IH. rewrite IH by discriminate. reflexivity. }
    destruct path as [|c rest];
      [apply orb_true_iff in Hm as [Hm|Hm]; apply String.eqb_eq in Hm; discriminate|].
    assert (c = "/"%char ∧ (to_lower rest = to_lower name
                            ∨ to_lower rest = to_lower name +:+ "/")) as [-> Hcase].
    { apply orb_true_iff in Hm as [Hm|Hm]; apply String.eqb_eq in Hm;
        simpl in Hm; injection Hm as Hc Hr; (split; [|auto]);
        pose proof (lower_slash c) as Hl; rewrite Hc in Hl;
        symmetry in Hl; apply Ascii.eqb_eq in Hl; exact Hl. }
    exists rest. split; [reflexivity|].
    rewrite to_lower_strip_trailing_slash.
    destruct Hcase as [-> | ->]; assumption. }
  exists (strip_trailing_slash rest). split; [|exact Hrest].
  unfold match_parameter. simpl.
  assert (strip_trailing_slash rest ≠ "") as Hnonempty.
  { intros Hempty. rewrite Hempty in Hrest. simpl in Hrest. congruence. }
  apply String.eqb_neq in Hnonempty. rewrite Hnonempty. simpl.
  rewrite <- to_lower_no_slash, Hrest, to_lower_no_slash, Hns. reflexivity.
Qed.

(** X12. The route [GET /pending] is shadowed: [router.get('/:paymentId')]
    is registered before [router.get('/pending')], so whatever the method
    and the path, [checkPendingPayments] never serves a request; a [GET] of
    a path that ['/pending'] matches is served by [getPaymentDetails] with
    [paymentId] the word "pending" (up to case). *)
Theorem checkPendingPayments_is_unreachable :
  (∀ m path endpoint param,
     dispatch payment_router m path = Some (endpoint, param) →
     endpoint ≠ checkPendingPayments_endpoint)
  ∧ (∀ path,
       match_literal "pending" path = true →
       ∃ paymentId,
         dispatch payment_router GET path
         = Some (getPaymentDetails_endpoint, Some paymentId)
         ∧ to_lower paymentId = "pending").
Proof.
  assert (∀ path, match_literal "pending" path = true →
            match_literal "verify" path = false
            ∧ match_literal "history" path = false) as Hother.
  { intros path Hm. unfold match_literal in *. simpl in *.
    apply orb_true_iff in Hm as [Hm|Hm]; apply String.eqb_eq in Hm; rewrite Hm;
      split; reflexivity. }
  split.
  - intros m path endpoint param Hd Hep. subst endpoint.
    unfold payment_router, dispatch, match_path in Hd.
    destruct (match_literal "pending" path) eqn:Hpending.
    + destruct (match_literal_parameter "pending" path) as (seg & Hseg & _);
        [discriminate|reflexivity|exact Hpending|].
      rewrite Hseg in Hd. simpl in Hd.
      destruct m; simpl in Hd;
        repeat match type of Hd with
               | context [match_literal ?n path] => destruct (match_literal n path)
               end; discriminate.
    + destruct m; simpl in Hd;
        repeat match type of Hd with
               | context [match_literal ?n path] => destruct (match_literal n path)
               | context [match_parameter path] => destruct (match_parameter path)
               end; discriminate.
  - intros path Hm. destruct (Hother path Hm) as [Hv Hh].
    destruct (match_literal_parameter "pending" path) as (seg & Hseg & Hlow);
      [discriminate|reflexivity|exact Hm|].
    exists seg. split; [|exact Hlow].
    unfold payment_router. simpl. rewrite Hv, Hh. simpl. rewrite Hseg. reflexivity.
Qed.

(** ** The error handler *)

(** X13. The status the error handler answers with, kind by kind: 400 for
    a [ValidationError], 404 for a [CastError] of kind [ObjectId], 409 for
    an error with code 11000, 401 for the two token errors, each kind
    tested in this order; for any other error the status already set on
    the response, with 500 in place of 200.  So it never answers 200. *)
Theorem errorHandler_status_by_kind (env : Env) (err : ErrorObject)
    (res_statusCode : Z) (response : ErrorResponse) :
  errorHandler env err res_statusCode = inr response →
  (err_name err = "ValidationError" → er_status response = 400)
  ∧ (err_name err = "CastError" → err_kind err = Some "ObjectId" →
     er_status response = 404)
  ∧ (err_code err = Some 11000 →
     err_name err ≠ "ValidationError" →
     ¬ (err_name err = "CastError" ∧ err_kind err = Some "ObjectId") →
     er_status response = 409)
  ∧ (err_name err = "JsonWebTokenError" ∨ err_name err = "TokenExpiredError" →
     err_code err ≠ Some 11000 →
     er_status response = 401)
  ∧ (err_name err ≠ "ValidationError" →
     ¬ (err_name err = "CastError" ∧ err_kind err = Some "ObjectId") →
     err_code err ≠ Some 11000 →
     err_name err ≠ "JsonWebTokenError" →
     err_name err ≠ "TokenExpiredError" →
     er_status response = if bool_decide (res_statusCode = 200) then 500
                          else res_statusCode)
  ∧ er_status response ≠ 200.
Proof.
  unfold errorHandler. intros Hr.
  destruct (decide (err_name err = "ValidationError")) as [HVE|HVE].
  { rewrite (bool_decide_eq_true_2 _ HVE) in Hr.
    destruct (err_errors err); [|discriminate]. injection Hr as <-. simpl.
    repeat split; intros; try reflexivity; try lia;
      exfalso; intuition congruence. }
  rewrite (bool_decide_eq_false_2 _ HVE) in Hr.
  destruct (decide (err_name err = "CastError" ∧ err_kind err = Some "ObjectId"))
    as [[HC HK]|HC].
  { rewrite (bool_decide_eq_true_2 _ HC), (bool_decide_eq_true_2 _ HK) in Hr.
    injection Hr as <-. simpl.
    repeat split; intros; try reflexivity; try lia;
      exfalso; intuition congruence. }
  assert (bool_decide (err_name err = "CastError")
          && bool_decide (err_kind err = Some "ObjectId") = false) as Hcast.
  { apply andb_false_iff.
    destruct (decide (err_name err = "CastError")) as [HN|HN];
      [right|left]; apply bool_decide_eq_false_2; intuition. }
  rewrite Hcast in Hr. clear Hcast.
  destruct (decide (err_code err = Some 11000)) as [H11|H11].
  { rewrite (bool_decide_eq_true_2 _ H11) in Hr.
    destruct (err_keyPattern err); [|discriminate]. injection Hr as <-. simpl.
    repeat split; intros; try reflexivity; try lia;
      exfalso; intuition congruence. }
  rewrite (bool_decide_eq_false_2 _ H11) in Hr.
  destruct (decide (err_name err = "JsonWebTokenError")) as [HJ|HJ].
  { rewrite (bool_decide_eq_true_2 _ HJ) in Hr. injection Hr as <-. simpl.
    repeat split; intros; try reflexivity; try lia;
      exfalso; intuition congruence. }
  rewrite (bool_decide_eq_false_2 _ HJ) in Hr.
  destruct (decide (err_name err = "TokenExpiredError")) as [HT|HT].
  { rewrite (bool_decide_eq_true_2 _ HT) in Hr. injection Hr as <-. simpl.
    repeat split; intros; try reflexivity; try lia;
      exfalso; intuition congruence. }
  rewrite (bool_decide_eq_false_2 _ HT) in Hr. injection Hr as <-. simpl.
  repeat split; intros; try reflexivity;
    try (case_bool_decide; lia); exfalso; intuition congruence.
Qed.

(** X14. What the error handler discloses: outside development the
    response never carries the stack, and its [error] member is the
    details array or absent, never the raw message; but the [message]
    member of an error of no known kind is the error's own message in
    every environment. *)
Theorem errorHandler_disclosure (env : Env) (err : ErrorObject)
    (res_statusCode : Z) (response : ErrorResponse) :
  errorHandler env err res_statusCode = inr response →
  (NODE_ENV env ≠ Some "development" →
   er_stack response = None ∧ ∀ m, er_error response ≠ ErrorMessage m)
  ∧ (NODE_ENV env = Some "development" → er_stack response = Some (err_stack err))
  ∧ (err_name err ≠ "ValidationError" →
     err_name err ≠ "CastError" →
     err_code err ≠ Some 11000 →
     err_name err ≠ "JsonWebTokenError" →
     err_name err ≠ "TokenExpiredError" →
     er_message response = err_message err).
Proof.
  unfold errorHandler, development. intros Hr.
  assert (er_stack response
          = (if bool_decide (NODE_ENV env = Some "development")
             then Some (err_stack err) else None)
          ∧ (∀ m, er_error response = ErrorMessage m →
                  bool_decide (NODE_ENV env = Some "development") = true)
          ∧ (bool_decide (err_name err = "ValidationError") = false →
             bool_decide (err_name err = "CastError") = false →
             bool_decide (err_code err = Some 11000) = false →
             bool_decide (err_name err = "JsonWebTokenError") = false →
             bool_decide (err_name err = "TokenExpiredError") = false →
             er_message response = err_message err)) as (Hstack & Herror & Hmsg).
  { destruct (bool_decide (err_name err = "ValidationError")).
    { destruct (err_errors err); [|discriminate]. injection Hr as <-. simpl.
      split; [reflexivity|]. split; intros; congruence. }
    destruct (bool_decide (err_name err = "CastError")
              && bool_decide (err_kind err = Some "ObjectId")) eqn:Hcast.
    { injection Hr as <-. simpl. split; [reflexivity|].
      apply andb_true_iff in Hcast as [Hcast _].
      split; [|intros; congruence].
      intros m Hm. destruct (bool_decide (NODE_ENV env = Some "development"));
        [reflexivity|discriminate Hm]. }
    destruct (bool_decide (err_code err = Some 11000)).
    { destruct (err_keyPattern err); [|discriminate]. injection Hr as <-. simpl.
      split; [reflexivity|]. split; intros; congruence. }
    destruct (bool_decide (err_name err = "JsonWebTokenError")).
    { injection Hr as <-. simpl. split; [reflexivity|].
      split; [|intros; congruence].
      intros m Hm. destruct (bool_decide (NODE_ENV env = Some "development"));
        [reflexivity|discriminate Hm]. }
    destruct (bool_decide (err_name err = "TokenExpiredError")).
    { injection Hr as <-. simpl. split; [reflexivity|].
      split; [|intros; congruence].
      intros m Hm. destruct (bool_decide (NODE_ENV env = Some "development"));
        [reflexivity|discriminate Hm]. }
    injection Hr as <-. simpl. split; [reflexivity|].
    split; [|intros; reflexivity].
    intros m Hm. destruct (bool_decide (NODE_ENV env = Some "development"));
      [reflexivity|discriminate Hm]. }
  split; [|split].
  - intros Hprod. rewrite (bool_decide_eq_false_2 _ Hprod) in Hstack, Herror.
    split; [exact Hstack|]. intros m Hm. specialize (Herror m Hm). discriminate.
  - intros Hdev. rewrite (bool_decide_eq_true_2 _ Hdev) in Hstack. exact Hstack.
  - intros H1 H2 H3 H4 H5. apply Hmsg; apply bool_decide_eq_false_2; assumption.
Qed.

(** An unmatched URL: [notFound] followed by the error handler
    answers 404 with the message "Not Found - " and the URL. *)
Theorem notFound_answers_404 (env : Env) (originalUrl : string) :
  ∃ response,
    errorHandler env (notFound originalUrl).1 (notFound originalUrl).2 = inr response
    ∧ er_status response = 404
    ∧ er_message response = "Not Found - " +:+ originalUrl.
Proof.
  eexists. split; [reflexivity|]. split; reflexivity.
Qed.

(** ** Authentication and authorization *)

Lemma starts_with_app (pat s : string) : starts_with pat (pat +:+ s) = true.
Proof.
  induction pat as [|c pat IH]; simpl; [reflexivity|].
  rewrite Ascii.eqb_refl, IH. reflexivity.
Qed.

Lemma drop_chars_app (pat s : string) : drop_chars (String.length pat) (pat +:+ s) = s.
Proof.
  induction pat as [|c pat IH]; simpl; [reflexivity|exact IH].
Qed.

Lemma remove_first_absent (pat s : string) :
  occurs pat s = false → remove_first pat s = s.
Proof.
  induction s as [|c s IH]; simpl; intros H; apply orb_false_iff in H as [H1 H2].
  - destruct pat; [discriminate|reflexivity].
  - rewrite H1, (IH H2). reflexivity.
Qed.

(** X15. The [Bearer] prefix is optional: a header that starts with
    "Bearer " yields the rest as the token, a header in which "Bearer "
    does not occur is the token as it stands, so the bare token is
    authenticated exactly like the prefixed one; no header, or the prefix
    alone, is refused with 401 before the token is verified. *)
Theorem authenticate_bearer_prefix_optional (jwt_verify : string → JwtOutcome)
    (User_findById : string → Err + option Account) :
  (∀ token, bearer_token (Some ("Bearer " +:+ token)) = Some token)
  ∧ (∀ token, occurs "Bearer " token = false →
       authenticate jwt_verify User_findById (Some token)
       = authenticate jwt_verify User_findById (Some ("Bearer " +:+ token)))
  ∧ authenticate jwt_verify User_findById None
    = Answer 401 "Authentication required. Please log in."
  ∧ authenticate jwt_verify User_findById (Some "Bearer ")
    = Answer 401 "Authentication required. Please log in.".
Proof.
  assert (∀ token, bearer_token (Some ("Bearer " +:+ token)) = Some token) as Hpre.
  { intros token. unfold bearer_token. simpl. reflexivity. }
  split; [exact Hpre|]. split; [|split; reflexivity].
  intros token Habsent. unfold authenticate. rewrite Hpre.
  unfold bearer_token. simpl fmap. rewrite (remove_first_absent _ _ Habsent).
  reflexivity.
Qed.

(** X16. What lets a request through [authenticate] and [authorize]: the
    guard hands over to the handler exactly when the token taken from the
    header is not empty, verifies, names a User that exists and is active,
    and the list of allowed roles is empty or holds the User's role; the
    user handed over is that User. *)
Theorem guarded_admits (jwt_verify : string → JwtOutcome)
    (User_findById : string → Err + option Account) (roles : Roles)
    (authorization : option string) (user : Account) :
  guarded jwt_verify User_findById roles authorization = Next user
  ↔ ∃ token userId,
      bearer_token authorization = Some token
      ∧ token ≠ ""
      ∧ jwt_verify token = JwtDecoded (Some userId)
      ∧ User_findById userId = inr (Some user)
      ∧ isActive user = true
      ∧ (allowedRoles roles = [] ∨ role user ∈ allowedRoles roles).
Proof.
  unfold guarded, authenticate, authorize, authentication_error. split.
  - destruct (bearer_token authorization) as [token|]; [|discriminate].
    case_bool_decide as Htok; [discriminate|].
    destruct (jwt_verify token) as [[userId|]|error] eqn:Hjwt; simpl.
    + destruct (User_findById userId) as [error|[u|]] eqn:Hu.
      * repeat case_bool_decide; discriminate.
      * destruct (isActive u) eqn:Hact; simpl; [|discriminate].
        destruct (allowedRoles roles) as [|r l] eqn:Hroles; simpl.
        -- intros [= <-]. exists token, userId. auto 10.
        -- case_bool_decide as Hin; simpl; [|discriminate].
           intros [= <-]. exists token, userId. auto 10.
      * discriminate.
    + discriminate.
    + repeat case_bool_decide; discriminate.
  - intros (token & userId & -> & Htok & -> & Hu & Hact & Hroles).
    rewrite (bool_decide_eq_false_2 _ Htok). simpl. rewrite Hu, Hact. simpl.
    destruct Hroles as [-> | Hin]; [reflexivity|].
    rewrite (bool_decide_eq_true_2 _ Hin), andb_false_r. reflexivity.
Qed.

(** ** The per-user rate limiter *)

Lemma filter_window_shift (w lo hi : Z) (l : list Z) :
  lo ≤ hi →
  filter (λ t, hi - w < t) (filter (λ t, lo - w < t) l) = filter (λ t, hi - w < t) l.
Proof.
  intros Hle. induction l as [|x l IH]; [reflexivity|].
  rewrite !filter_cons. destruct (decide (lo - w < x)), (decide (hi - w < x));
    rewrite ?filter_cons; try destruct (decide (hi - w < x)); try lia;
    rewrite IH; reflexivity.
Qed.

Lemma nondecreasing_snoc (l : list Z) (x : Z) :
  nondecreasing (l ++ [x]) →
  nondecreasing l ∧ ∀ y, last l = Some y → y ≤ x.
Proof.
  intros Hnd. split.
  - intros i j a b Hij Ha Hb. apply (Hnd i j a b Hij).
    + apply lookup_app_l_Some, Ha.
    + apply lookup_app_l_Some, Hb.
  - intros y Hy. rewrite last_lookup in Hy.
    apply (Hnd (pred (length l)) (length l) y x).
    + lia.
    + apply lookup_app_l_Some, Hy.
    + rewrite lookup_app_r by lia. rewrite Nat.sub_diag. reflexivity.
Qed.

(** X17. The sliding window of [rateLimitByUser].  For the requests of
    one key, arriving in the order of a clock that does not run backwards,
    into a map that had no entry for the key: after the last request the
    entry holds exactly the times of the requests let through that lie
    inside the window ending at that request, and there are at most [max]
    of them. *)
Theorem rateLimit_window {K : Type} `{Countable K} (windowMs max : Z)
    (userId : K) (requests : gmap K (list Z)) (times : list Z) (now : Z) :
  0 < windowMs →
  0 ≤ max →
  requests !! userId = None →
  nondecreasing times →
  last times = Some now →
  let '(requests', admitted) := serve windowMs max userId requests times in
  requests' !! userId = Some (filter (λ t, now - windowMs < t) admitted)
  ∧ Z.of_nat (length (filter (λ t, now - windowMs < t) admitted)) ≤ max.
Proof.
  intros Hw Hmax Hnone. revert now.
  induction times as [|x times IH] using rev_ind; intros now Hnd Hlast;
    [discriminate|].
  rewrite last_snoc in Hlast. injection Hlast as ->.
  apply nondecreasing_snoc in Hnd as [Hnd Hle].
  unfold serve in *. rewrite foldl_app. simpl.
  destruct (foldl _ (requests, []) times) as [m admitted] eqn:Hfold.
  assert (∃ stored,
            default [] (m !! userId) = stored
            ∧ filter (λ t, now - windowMs < t) stored
              = filter (λ t, now - windowMs < t) admitted
            ∧ Z.of_nat (length stored) ≤ max) as (stored & Hstored & Hrecent & Hlen).
  { destruct (last times) as [prev|] eqn:Hprev.
    - destruct (IH prev Hnd eq_refl) as [Hm Hl]. rewrite Hm. simpl.
      eexists. split; [reflexivity|]. split; [|exact Hl].
      apply filter_window_shift, Hle. reflexivity.
    - apply last_None in Hprev. subst times. simpl in Hfold.
      injection Hfold as <- <-. rewrite Hnone. simpl.
      exists []. split; [reflexivity|]. split; [reflexivity|simpl; lia]. }
  unfold rateLimit. rewrite Hstored, Hrecent.
  assert (Z.of_nat (length (filter (λ t, now - windowMs < t) admitted))
          ≤ Z.of_nat (length stored)) as Hshrink.
  { rewrite <- Hrecent. apply inj_le, length_filter. }
  case_bool_decide as Hfull.
  - rewrite lookup_insert_eq. split; [reflexivity|lia].
  - rewrite lookup_insert_eq, filter_app, filter_cons.
    destruct (decide (now - windowMs < now)); [|lia].
    rewrite filter_nil. split; [reflexivity|].
    rewrite length_app. simpl. lia.
Qed.

(** X18. A quiet window lets the user in again: when every stored time of
    the key lies at or before the start of the window and [max] is at
    least one, the request is let through, its time becomes the key's
    only stored time, and the entries of the other keys stay as they
    were. *)
Theorem rateLimit_after_quiet_window {K : Type} `{Countable K}
    (windowMs max : Z) (requests : gmap K (list Z)) (userId : K) (now : Z) :
  1 ≤ max →
  Forall (λ time, time ≤ now - windowMs) (default [] (requests !! userId)) →
  ∃ requests',
    rateLimit windowMs max requests userId now = (true, requests')
    ∧ requests' !! userId = Some [now]
    ∧ ∀ other, other ≠ userId → requests' !! other = requests !! other.
Proof.
  intros Hmax Hold. unfold rateLimit.
  assert (filter (λ time, now - windowMs < time) (default [] (requests !! userId)) = [])
    as ->.
  { induction Hold as [|t l Ht Hl IH]; [reflexivity|].
    rewrite filter_cons. destruct (decide (now - windowMs < t)); [lia|exact IH]. }
  simpl. rewrite bool_decide_eq_false_2 by lia.
  eexists. split; [reflexivity|]. split; [apply lookup_insert_eq|].
  intros other Hne. apply lookup_insert_ne. congruence.
Qed.

(** ** Input sanitization and validation *)

Lemma remove_brackets_free (s : string) : bracket_free (remove_brackets s) = true.
Proof.
  induction s as [|c s IH]; simpl; [reflexivity|].
  destruct (is_lt c || is_gt c) eqn:Hc; simpl; [exact IH|].
  rewrite Hc, IH. reflexivity.
Qed.

Lemma remove_brackets_id (s : string) :
  bracket_free s = true → remove_brackets s = s.
Proof.
  induction s as [|c s IH]; simpl; [reflexivity|].
  destruct (is_lt c || is_gt c); simpl; [discriminate|].
  intros Hs. rewrite (IH Hs). reflexivity.
Qed.

Lemma strip_tags_id (s : string) :
  bracket_free s = true → strip_tags false s = s.
Proof.
  induction s as [|c s IH]; simpl; [reflexivity|].
  destruct (is_lt c); simpl; [discriminate|].
  intros Hs. apply andb_true_iff in Hs as [_ Hs]. rewrite (IH Hs). reflexivity.
Qed.

Lemma deletes_to_refl (s : string) : deletes_to s s.
Proof. induction s as [|c s IH]; simpl; [reflexivity|]. right. split; [reflexivity|exact IH]. Qed.

Lemma deletes_to_trans (s1 s2 s3 : string) :
  deletes_to s1 s2 → deletes_to s2 s3 → deletes_to s1 s3.
Proof.
  revert s2 s3. induction s1 as [|c s1 IH]; simpl; intros s2 s3 H12 H23.
  - subst s2. exact H23.
  - destruct H12 as [H12|H12]; [left; eapply IH; eassumption|].
    destruct s2 as [|c2 s2]; [contradiction|]. destruct H12 as [-> H12].
    simpl in H23. destruct H23 as [H23|H23].
    + left. eapply IH; eassumption.
    + destruct s3 as [|c3 s3]; [contradiction|]. destruct H23 as [-> H23].
      right. split; [reflexivity|]. eapply IH; eassumption.
Qed.

Lemma strip_tags_deletes (inside : bool) (s : string) :
  deletes_to s (strip_tags inside s).
Proof.
  revert inside. induction s as [|c s IH]; intros inside; simpl; [reflexivity|].
  destruct inside; [left; apply IH|].
  destruct (is_lt c); [left; apply IH|]. right. split; [reflexivity|apply IH].
Qed.

Lemma remove_brackets_deletes (s : string) : deletes_to s (remove_brackets s).
Proof.
  induction s as [|c s IH]; simpl; [reflexivity|].
  destruct (is_lt c || is_gt c); [left; exact IH|]. right. split; [reflexivity|exact IH].
Qed.

(** X19. What [sanitize] does to a string: the result holds neither ['<']
    nor ['>']; it is the trimmed input with characters deleted, nothing
    added or reordered; and a trimmed input without angle brackets comes
    back as it is. *)
Theorem sanitize_string_properties (trim : string → string) (s : string) :
  bracket_free (sanitize_string trim s) = true
  ∧ deletes_to (trim s) (sanitize_string trim s)
  ∧ (bracket_free (trim s) = true → sanitize_string trim s = trim s).
Proof.
  unfold sanitize_string. split; [apply remove_brackets_free|]. split.
  - eapply deletes_to_trans; [apply strip_tags_deletes|apply remove_brackets_deletes].
  - intros Hfree. rewrite (strip_tags_id _ Hfree). apply remove_brackets_id, Hfree.
Qed.

(** X20. What [sanitize] does to a body: every string anywhere in the
    result is free of angle brackets; and when no object of the input has
    a member named [__proto__], the result has the shape of the input, the
    same arrays and objects under the same keys (keys are not sanitized)
    with the same non-string leaves. *)
Theorem sanitize_clean_and_shape (trim : string → string) (obj : JsValue) :
  clean (sanitize trim obj)
  ∧ (proto_free obj → shape (sanitize trim obj) = shape obj).
Proof.
  revert obj. fix IH 1. intros [s|items|members|literal]; simpl.
  - split; [apply remove_brackets_free|reflexivity].
  - assert (fold_right (λ x acc, clean x ∧ acc) True (List.map (sanitize trim) items)
            ∧ (fold_right (λ x acc, proto_free x ∧ acc) True items →
               List.map shape (List.map (sanitize trim) items) = List.map shape items))
      as [Hc Hs].
    { induction items as [|x items IHitems]; simpl; [split; [exact I|reflexivity]|].
      destruct (IH x) as [Hx1 Hx2], IHitems as [Hi1 Hi2].
      split; [split; assumption|]. intros [Hpx Hpi].
      rewrite (Hx2 Hpx), (Hi2 Hpi). reflexivity. }
    split; [exact Hc|]. intros Hp. rewrite (Hs Hp). reflexivity.
  - assert (fold_right (λ kv acc, clean kv.2 ∧ acc) True
              (List.flat_map
                 (λ kv, if String.eqb kv.1 "__proto__" then []
                        else [(kv.1, sanitize trim kv.2)]) members)
            ∧ (fold_right (λ kv acc, kv.1 ≠ "__proto__" ∧ proto_free kv.2 ∧ acc)
                          True members →
               List.map (λ kv, (kv.1, shape kv.2))
                 (List.flat_map
                    (λ kv, if String.eqb kv.1 "__proto__" then []
                           else [(kv.1, sanitize trim kv.2)]) members)
               = List.map (λ kv, (kv.1, shape kv.2)) members)) as [Hc Hs].
    { induction members as [|[k x] members IHmembers]; simpl;
        [split; [exact I|reflexivity]|].
      destruct (IH x) as [Hx1 Hx2], IHmembers as [Hi1 Hi2].
      destruct (String.eqb_spec k "__proto__") as [->|Hk]; simpl.
      - split; [exact Hi1|]. intros [Hne _]. contradiction.
      - split; [split; assumption|]. intros (_ & Hpx & Hpi).
        rewrite (Hx2 Hpx), (Hi2 Hpi). reflexivity. }
    split; [exact Hc|]. intros Hp. rewrite (Hs Hp). reflexivity.
  - split; [exact I|reflexivity].
Qed.

Lemma phoneDigits_insert (s1 s2 : string) (c : ascii) :
  is_digit c = false →
  phoneDigits (s1 +:+ String c s2) = phoneDigits (s1 +:+ s2).
Proof.
  intros Hc. induction s1 as [|d s1 IH]; simpl.
  - rewrite Hc. reflexivity.
  - rewrite IH. reflexivity.
Qed.

Lemma phoneDigits_length (s : string) :
  (String.length (phoneDigits s) ≤ String.length s)%nat.
Proof.
  induction s as [|c s IH]; simpl; [lia|]. destruct (is_digit c); simpl; lia.
Qed.

(** X21. [validatePhoneNumber] looks at the digits alone: a character that
    is not a digit can be put in or taken out anywhere without changing
    the verdict; and a value of fewer than seven characters is always
    refused as too short. *)
Theorem validatePhoneNumber_digits_only :
  (∀ s1 s2 c, is_digit c = false →
     validatePhoneNumber (s1 +:+ String c s2) = validatePhoneNumber (s1 +:+ s2))
  ∧ (∀ value, (String.length value < 7)%nat →
       validatePhoneNumber value = inl (JsError "Error" "Phone number is too short")).
Proof.
  split.
  - intros s1 s2 c Hc. unfold validatePhoneNumber.
    rewrite (phoneDigits_insert _ _ _ Hc). reflexivity.
  - intros value Hlen. unfold validatePhoneNumber.
    pose proof (phoneDigits_length value).
    destruct (Nat.ltb_spec (String.length (phoneDigits value)) 7); [reflexivity|lia].
Qed.

(** ** Password timestamps *)

(** X22. The second taken off by the save hook does its work: once a
    password change is saved at time [now], a token whose timestamp is the
    second of the change or later is not reported as issued before it,
    while a token two seconds older or more is; a new document, and a save
    that leaves the password alone, keep their [passwordChangedAt], and no
    token predates the change of a document that has none. *)
Theorem changedPasswordAfter_save (now : Z) (doc : PasswordState) (JWTTimestamp : Z) :
  (isModified_password doc = true → isNew doc = false →
   (now `div` 1000 ≤ JWTTimestamp →
    changedPasswordAfter (stamp_password_change now doc) JWTTimestamp = false)
   ∧ (JWTTimestamp + 2 ≤ now `div` 1000 →
      changedPasswordAfter (stamp_password_change now doc) JWTTimestamp = true))
  ∧ (isModified_password doc = false ∨ isNew doc = true →
     stamp_password_change now doc = doc)
  ∧ (passwordChangedAt doc = None → changedPasswordAfter doc JWTTimestamp = false).
Proof.
  split; [|split].
  - intros Hmod Hnew. unfold stamp_password_change, changedPasswordAfter.
    rewrite Hmod, Hnew. simpl.
    assert (now `div` 1000 - 1 ≤ (now - 1000) `quot` 1000 ≤ now `div` 1000) as Hq.
    { pose proof (Z.div_mod now 1000 ltac:(lia)) as Hdm.
      pose proof (Z.mod_pos_bound now 1000 ltac:(lia)) as Hmb.
      pose proof (Z.quot_rem' (now - 1000) 1000) as Hqr.
      destruct (Z_lt_le_dec (now - 1000) 0) as [Hneg|Hpos].
      - pose proof (Z.rem_bound_pos_neg (now - 1000) 1000 ltac:(lia) ltac:(lia)) as Hb.
        lia.
      - pose proof (Z.rem_bound_pos (now - 1000) 1000 ltac:(lia) ltac:(lia)) as Hb.
        lia. }
    split; intros Hts; [apply bool_decide_eq_false_2|apply bool_decide_eq_true_2]; lia.
  - unfold stamp_password_change. intros [-> | ->]; [reflexivity|].
    rewrite orb_true_r. reflexivity.
  - intros Hnone. unfold changedPasswordAfter. rewrite Hnone. reflexivity.
Qed.

(** ** The CORS origin check *)

Lemma string_app_assoc (a b c : string) : (a +:+ b) +:+ c = a +:+ (b +:+ c).
Proof.
  induction a as [|x a IH]; [reflexivity|].
  change (String x ((a +:+ b) +:+ c) = String x (a +:+ (b +:+ c))).
  f_equal. exact IH.
Qed.

Lemma string_app_empty_r (a : string) : a +:+ "" = a.
Proof.
  induction a as [|x a IH]; [reflexivity|].
  change (String x (a +:+ "") = String x a). f_equal. exact IH.
Qed.

Lemma split_commas_from_piece (current a rest : string) :
  comma_free a = true →
  split_commas_from current (a +:+ String "," rest)
  = (current +:+ a) :: split_commas_from "" rest.
Proof.
  revert current. induction a as [|c a IH]; intros current Ha; simpl.
  - rewrite string_app_empty_r. reflexivity.
  - simpl in Ha. apply andb_true_iff in Ha as [Hc Ha].
    apply negb_true_iff in Hc. rewrite Hc, (IH _ Ha). rewrite string_app_assoc. reflexivity.
Qed.

Lemma split_commas_from_last (current a : string) :
  comma_free a = true → split_commas_from current a = [current +:+ a].
Proof.
  revert current. induction a as [|c a IH]; intros current Ha; simpl.
  - rewrite string_app_empty_r. reflexivity.
  - simpl in Ha. apply andb_true_iff in Ha as [Hc Ha].
    apply negb_true_iff in Hc. rewrite Hc, (IH _ Ha), string_app_assoc. reflexivity.
Qed.

(** X23. Who passes the CORS origin check.  A request without an [Origin]
    header always does, and in development every origin does.  Otherwise
    the origin must equal one of the pieces of [FRONTEND_URL] cut at its
    commas, character for character (a piece keeps the blanks around it):
    with a single origin configured exactly that origin passes, and the
    list [a,rest] admits [a] and whatever [rest] admits. *)
Theorem cors_origin_exact_match :
  (∀ env, cors_origin env None = true)
  ∧ (∀ env origin, NODE_ENV env = Some "development" →
       cors_origin env (Some origin) = true)
  ∧ (∀ env url origin,
       NODE_ENV env ≠ Some "development" → FRONTEND_URL env = Some url →
       url ≠ "" → comma_free url = true → origin ≠ "" →
       (cors_origin env (Some origin) = true ↔ origin = url))
  ∧ (∀ a rest, comma_free a = true →
       split_commas (a +:+ String "," rest) = a :: split_commas rest).
Proof.
  split; [reflexivity|]. split; [|split].
  - intros env origin Hdev. unfold cors_origin, development.
    rewrite (bool_decide_eq_true_2 _ Hdev), orb_true_r.
    destruct (falsy (Some origin)); reflexivity.
  - intros env url origin Hprod Hurl Hne Hfree Horigin.
    unfold cors_origin, development, allowedOrigins. rewrite Hurl. simpl.
    rewrite (bool_decide_eq_false_2 _ Horigin), (bool_decide_eq_false_2 _ Hne),
      (bool_decide_eq_false_2 _ Hprod), orb_false_r.
    unfold split_commas. rewrite (split_commas_from_last "" url Hfree). simpl.
    rewrite bool_decide_eq_true, list_elem_of_singleton. reflexivity.
  - intros a rest Hfree. unfold split_commas.
    rewrite (split_commas_from_piece "" a rest Hfree). reflexivity.
Qed.

(** ** The webhook body as the application parses it *)


(** ** The further properties at the sample deployment *)

(** X5 at the sample deployment: the secret is ["whsec"], the webhook has
    no signature header. *)
Lemma handleWebhook_rejects_bad_signature_witness :
  (@PaymentService.verifyWebhookSignature sample_platform (production (Some "whsec"))
     charge_success_PAY1 None = true
   ↔ None = Some (@hmac_sha512_hex sample_platform "whsec"
                    (@JSON_stringify sample_platform charge_success_PAY1)))
  ∧ (None ≠ Some (@hmac_sha512_hex sample_platform "whsec"
                    (@JSON_stringify sample_platform charge_success_PAY1)) →
     run paying_world
         (@PaymentController.handleWebhook sample_platform ThisController
            (production (Some "whsec")) (unsigned_webhook charge_success_PAY1))
         sample_store
     = (inr (json 401 false None (BodyError "Invalid signature")), sample_store, [])).
Proof.
  apply (@handleWebhook_rejects_bad_signature sample_platform paying_world
           sample_store ThisController (production (Some "whsec"))
           (unsigned_webhook charge_success_PAY1) "whsec").
  - reflexivity.
  - discriminate.
Defined.


(** X7 at the sample deployment: [P1] is pending and not yet due. *)
Lemma initializePayment_reuse_witness :
  run paying_world
      (PaymentController.initializePayment paying_world (production None) initialize_A5)
      sample_store
  = (inr match gateway_initialize paying_world
                 (reuse_args (production None) initialize_A5 P1) with
         | inr d => json 200 true (Some "Payment initialized successfully")
                         (BodyCheckout d)
         | inl e => json 500 false (Some "Payment initialization failed")
                         (BodyError (or_default (error_message e)
                                                "Payment initialization failed"))
         end,
     sample_store,
     [Application_findById 5%N;
      Payment_findOne_pending 5%N;
      paystack_transaction_initialize (reuse_args (production None) initialize_A5 P1)]).
Proof.
  apply (initializePayment_reuse_writes_nothing paying_world (production None)
           initialize_A5 sample_store A5 P1).
  - reflexivity.
  - reflexivity.
  - discriminate.
Defined.

(** X8 at the sample deployment: the gateway reports ["PAY-1"] paid;
    [P1] was stored without a [metadata] bag. *)
Lemma verifyPayment_success_cascade_witness :
  ∃ st' : Store,
    run paying_world
        (PaymentController.verifyPayment (production None) verify_PAY1) sample_store
    = (inr (json 200 true (Some "Payment verified successfully")
              (BodyPayment
                 {| doc := settled_doc P1 Success 1700000000000 "paystackData"
                                       (MetaVerification paid_noon);
                    populated_user := Some U1;
                    populated_application := Some A5 |}
                 (Some "https://academy.example/dashboard"))),
       st',
       [Payment_findOne_reference "PAY-1";
        paystack_transaction_verify "PAY-1";
        payment_save 10%N (settle_patch P1 Success 1700000000000 "paystackData"
                                        (MetaVerification paid_noon));
        Application_findByIdAndUpdate 5%N enrolled_paid;
        User_findByIdAndUpdate_addToSet 1%N (Some 5%N)])
    ∧ findPaymentById 10%N st'
      = Some {| payment_id := 10%N;
                payment_user := 1%N;
                payment_application := 5%N;
                track := "devops";
                program := "launchpad";
                amount := 500000;
                currency := "NGN";
                reference := "PAY-1";
                status := Success;
                paymentMethod := "paystack";
                metadata := {[ "paystackData" := MetaVerification paid_noon ]};
                paidAt := Some 1700000000000;
                verified := true;
                expiresAt := 86400000 |}
    ∧ findApplicationById 5%N st'
      = Some {| application_id := 5%N;
                application_email := "ada@example.com";
                application_status := AppEnrolled;
                paymentStatus := PayPaid;
                application_payment := Some 10%N;
                application_program := "launchpad";
                application_track := "devops";
                application_profile := [("firstName", "Ada"); ("lastName", "Obi")] |}
    ∧ users st' = [U1].
Proof.
  apply (verifyPayment_success_cascade paying_world (production None) sample_store
           "PAY-1" P1 A5 U1 paid_noon 1700000000000).
  - discriminate.
  - reflexivity.
  - reflexivity.
  - reflexivity.
  - reflexivity.
  - reflexivity.
  - reflexivity.
  - reflexivity.
  - reflexivity.
Defined.

(** X25 at the sample deployment: [P1] is pending and not yet due, the
    gateway opens the session ["T2"]. *)
Lemma initializePayment_200_is_reuse_witness :
  ∃ (a : Application) (existingPayment : Payment) (d : CheckoutData),
    findApplicationById 5%N sample_store = Some a
    ∧ findPendingPayment 5%N sample_store = Some existingPayment
    ∧ now paying_world ≤ expiresAt existingPayment
    ∧ gateway_initialize paying_world
        (reuse_args (production None) initialize_A5 existingPayment) = inr d
    ∧ json 200 true (Some "Payment initialized successfully") (BodyCheckout session_T2)
      = json 200 true (Some "Payment initialized successfully") (BodyCheckout d)
    ∧ sample_store = sample_store
    ∧ [Application_findById 5%N;
       Payment_findOne_pending 5%N;
       paystack_transaction_initialize
         (reuse_args (production None) initialize_A5 P1)]
      = [Application_findById 5%N;
         Payment_findOne_pending 5%N;
         paystack_transaction_initialize
           (reuse_args (production None) initialize_A5 existingPayment)].
Proof.
  apply (initializePayment_200_is_reuse paying_world (production None)
           initialize_A5 sample_store sample_store
           (json 200 true (Some "Payment initialized successfully")
                 (BodyCheckout session_T2))
           [Application_findById 5%N;
            Payment_findOne_pending 5%N;
            paystack_transaction_initialize
              (reuse_args (production None) initialize_A5 P1)]).
  - reflexivity.
  - reflexivity.
Defined.

(** X13 at an error of no known kind, nothing set on the response. *)
Lemma errorHandler_status_by_kind_witness :
  ∃ response,
    errorHandler (production None) boom 200 = inr response
    ∧ (err_name boom = "ValidationError" → er_status response = 400)
    ∧ (err_name boom = "CastError" → err_kind boom = Some "ObjectId" →
       er_status response = 404)
    ∧ (err_code boom = Some 11000 →
       err_name boom ≠ "ValidationError" →
       ¬ (err_name boom = "CastError" ∧ err_kind boom = Some "ObjectId") →
       er_status response = 409)
    ∧ (err_name boom = "JsonWebTokenError" ∨ err_name boom = "TokenExpiredError" →
       err_code boom ≠ Some 11000 →
       er_status response = 401)
    ∧ (err_name boom ≠ "ValidationError" →
       ¬ (err_name boom = "CastError" ∧ err_kind boom = Some "ObjectId") →
       err_code boom ≠ Some 11000 →
       err_name boom ≠ "JsonWebTokenError" →
       err_name boom ≠ "TokenExpiredError" →
       er_status response = 500)
    ∧ er_status response ≠ 200.
Proof.
  eexists. split; [reflexivity|].
  apply (errorHandler_status_by_kind (production None) boom 200).
  reflexivity.
Defined.

(** X14 at an error of no known kind, in production. *)
Lemma errorHandler_disclosure_witness :
  (NODE_ENV (production None) ≠ Some "development" →
   er_stack {| er_status := 500; er_message := "boom";
               er_error := ErrorUndefined; er_stack := None |} = None
   ∧ ∀ m, er_error {| er_status := 500; er_message := "boom";
                      er_error := ErrorUndefined; er_stack := None |}
          ≠ ErrorMessage m)
  ∧ (NODE_ENV (production None) = Some "development" →
     er_stack {| er_status := 500; er_message := "boom";
                 er_error := ErrorUndefined; er_stack := None |}
     = Some (err_stack boom))
  ∧ (err_name boom ≠ "ValidationError" →
     err_name boom ≠ "CastError" →
     err_code boom ≠ Some 11000 →
     err_name boom ≠ "JsonWebTokenError" →
     err_name boom ≠ "TokenExpiredError" →
     er_message {| er_status := 500; er_message := "boom";
                   er_error := ErrorUndefined; er_stack := None |}
     = err_message boom).
Proof.
  apply (errorHandler_disclosure (production None) boom 200
           {| er_status := 500; er_message := "boom";
              er_error := ErrorUndefined; er_stack := None |}).
  reflexivity.
Defined.

(** X17 for one address, two requests allowed per second: three requests
    in a burst and one two seconds later. *)
Lemma rateLimit_window_witness :
  let '(requests', admitted) :=
    serve 1000 2 "10.0.0.1" (∅ : gmap string (list Z)) [0; 10; 20; 2000] in
  requests' !! "10.0.0.1" = Some (filter (λ t, 2000 - 1000 < t) admitted)
  ∧ Z.of_nat (length (filter (λ t, 2000 - 1000 < t) admitted)) ≤ 2.
Proof.
  apply (rateLimit_window 1000 2 "10.0.0.1" (∅ : gmap string (list Z))
           [0; 10; 20; 2000] 2000).
  - reflexivity.
  - discriminate.
  - reflexivity.
  - intros [|[|[|[|i]]]] [|[|[|[|j]]]] a b Hij Ha Hb; simpl in Ha, Hb;
      try discriminate; injection Ha as <-; injection Hb as <-; lia.
  - reflexivity.
Defined.

(** X18 for one address whose two stored requests are four seconds
    old. *)
Lemma rateLimit_after_quiet_window_witness :
  ∃ requests',
    rateLimit 1000 1 (<["10.0.0.1" := [0; 5]]> (∅ : gmap string (list Z)))
              "10.0.0.1" 5000
    = (true, requests')
    ∧ requests' !! "10.0.0.1" = Some [5000]
    ∧ ∀ other, other ≠ "10.0.0.1" →
        requests' !! other
        = (<["10.0.0.1" := [0; 5]]> (∅ : gmap string (list Z))) !! other.
Proof.
  apply (rateLimit_after_quiet_window 1000 1
           (<["10.0.0.1" := [0; 5]]> (∅ : gmap string (list Z))) "10.0.0.1" 5000).
  - discriminate.
  - rewrite lookup_insert_eq. simpl. repeat constructor; discriminate.
Defined.

